(** * KIT-Ilias-Downloader: the host program [main.py] and its time scheduler

    The development has two parts.

    - [Host]: a shallow embedding of [src/main.py].  The program is a
      script that talks to its surroundings (environment variables, the
      file system, sub-processes, an interactive dialog, the logger and the
      [TimeScheduler] object).  Each function of the script becomes a
      computation in a small state-and-exception monad over an abstract
      world; every call to a collaborator is recorded in a trace.

    - [Scheduler]: the [scheduler] module that [main.py] imports is not
      part of the sources; its data model and driver are modelled from the
      specification. *)

From Stdlib Require Import ZArith String Ascii List Bool Lia.
From stdpp Require Import gmap strings list pretty.

Import ListNotations.
Local Open Scope string_scope.
Local Open Scope Z_scope.
Local Open Scope list_scope.

(** ** Python values that occur in the script *)

Module Py.

(** The values stored in the configuration dictionary and returned by
    the dialog: [None], a [str] or an [int]. *)
Inductive value : Type :=
| None_
| Str (s : string)
| Int (z : Z).

#[global] Instance value_eq_dec : EqDecision value.
Proof. solve_decision. Defined.

(** Truth value testing: [None], [''] and [0] are falsy. *)
Definition truthy (v : value) : bool :=
  match v with
  | None_ => false
  | Str s => negb (String.eqb s "")
  | Int z => negb (z =? 0)
  end.

(** [x or y]. *)
Definition or_ (x y : value) : value := if truthy x then x else y.

(** [str(v)], which is what an f-string placeholder [{v}] inserts. *)
Definition str (v : value) : string :=
  match v with
  | None_ => "None"
  | Str s => s
  | Int z => pretty z
  end.

(** [x == 'lit'] for a value and a string literal. *)
Definition eq_str (v : value) (lit : string) : bool :=
  match v with
  | Str s => String.eqb s lit
  | _ => false
  end.

(** Characters for which [str.isspace] holds, among the code points
    below 256 (a Rocq string is read as a sequence of such code points). *)
Definition isspace (c : ascii) : bool :=
  let n := nat_of_ascii c in
  ((9 <=? n)%nat && (n <=? 13)%nat)
  || ((28 <=? n)%nat && (n <=? 32)%nat)
  || (n =? 133)%nat || (n =? 160)%nat.

(** [s.split()]: the maximal runs of non-whitespace characters, in
    order.  [cur] is the run being read, reversed. *)
Fixpoint split_go (cur : list ascii) (s : string) : list string :=
  let flush := match cur with
               | [] => []
               | _ => [string_of_list_ascii (rev cur)]
               end in
  match s with
  | EmptyString => flush
  | String c s' =>
      if isspace c then flush ++ split_go [] s'
      else split_go (c :: cur) s'
  end.

Definition split (s : string) : list string := split_go [] s.

(** [needle in hay] for strings. *)
Fixpoint contains (needle hay : string) : bool :=
  String.prefix needle hay ||
  match hay with
  | EmptyString => false
  | String _ hay' => contains needle hay'
  end.

(** [l[i]] for a list, with Python's negative indices; [None] stands for
    [IndexError]. *)
Definition index {A} (l : list A) (i : Z) : option A :=
  let n := Z.of_nat (length l) in
  if (0 <=? i) && (i <? n) then l !! Z.to_nat i
  else if (- n <=? i) && (i <? 0) then l !! Z.to_nat (n + i)
  else None.

(** [repr(s)] for a string of code points below 256: single quotes
    unless the string holds a single quote and no double quote; the
    quote and the backslash escaped; control and unprintable code points
    as [\t], [\n], [\r] or [\xhh]. *)
Definition hex_digit (n : nat) : ascii :=
  ascii_of_nat (if (n <? 10)%nat then 48 + n else 87 + n).

Definition printable (n : nat) : bool :=
  ((32 <=? n)%nat && (n <? 127)%nat)
  || ((161 <=? n)%nat && negb (n =? 173)%nat).

Definition backslash : ascii := ascii_of_nat 92.
Definition squote : ascii := ascii_of_nat 39.
Definition dquote : ascii := ascii_of_nat 34.

Fixpoint has_char (c : ascii) (s : string) : bool :=
  match s with
  | EmptyString => false
  | String d s' => Ascii.eqb c d || has_char c s'
  end.

Fixpoint repr_body (quote : ascii) (s : string) : string :=
  match s with
  | EmptyString => EmptyString
  | String c s' =>
      let n := nat_of_ascii c in
      let rest := repr_body quote s' in
      if Ascii.eqb c quote || Ascii.eqb c backslash
      then String backslash (String c rest)
      else if (n =? 9)%nat then String backslash (String "t" rest)
      else if (n =? 10)%nat then String backslash (String "n" rest)
      else if (n =? 13)%nat then String backslash (String "r" rest)
      else if printable n then String c rest
      else String backslash (String "x"
             (String (hex_digit (n / 16)) (String (hex_digit (n mod 16)) rest)))
  end.

Definition repr (s : string) : string :=
  let quote := if has_char squote s && negb (has_char dquote s)
               then dquote else squote in
  String quote (repr_body quote s) +:+ String quote EmptyString.

(** [repr(l)] for a list of strings. *)
Definition repr_list (l : list string) : string :=
  "[" +:+ String.concat ", " (map repr l) +:+ "]".

(** A token as [split] yields them: not empty and without whitespace. *)
Definition is_token (t : string) : bool :=
  negb (String.eqb t "") && forallb (λ c, negb (isspace c)) (list_ascii_of_string t).

(** A string of whitespace only. *)
Definition blank (s : string) : bool := forallb isspace (list_ascii_of_string s).


End Py.

(** ** Configuration: [load_config] *)

Module Config.

Definition USER_NAME := "ILIAS_DOWNLOADER_USER_NAME".
Definition PASSWORD := "ILIAS_DOWNLOADER_PASSWORD".
Definition CLOUD_OUTPUT_PATH := "ILIAS_DOWNLOADER_CLOUD_OUTPUT_PATH".
Definition SYNC_URL := "ILIAS_DOWNLOADER_SYNC_URL".
Definition JOBS := "ILIAS_DOWNLOADER_JOBS".
Definition RATE := "ILIAS_DOWNLOADER_RATE".
Definition RCLONE_REMOTE_NAME := "ILIAS_DOWNLOADER_RCLONE_REMOTE_NAME".
Definition CLIENT_ID := "ILIAS_DOWNLOADER_CLIENT_ID".
Definition CLIENT_SECRET := "ILIAS_DOWNLOADER_CLIENT_SECRET".
Definition UPLOAD_TIMES := "ILIAS_DOWNLOADER_UPLOAD_TIMES".

(** The key and default value pairs, in the order of the script. *)
Definition key_defaults : list (string * Py.value) :=
  [ (USER_NAME, Py.None_);
    (PASSWORD, Py.None_);
    (CLOUD_OUTPUT_PATH, Py.Str "output");
    (SYNC_URL, Py.None_);
    (JOBS, Py.Int 10);
    (RATE, Py.Int 100);
    (RCLONE_REMOTE_NAME, Py.Str "IliasDL-Cloud-Drive");
    (CLIENT_ID, Py.None_);
    (CLIENT_SECRET, Py.None_);
    (UPLOAD_TIMES, Py.Str "00:00") ].

(** [os.getenv(key)] on the process environment [env] (as it is after
    [load_dotenv()]): the value, or [None]. *)
Definition getenv (env : gmap string string) (key : string) : Py.value :=
  match env !! key with
  | Some s => Py.Str s
  | None => Py.None_
  end.

(** [load_config]: [cfg[key] = os.getenv(key) or default] for each pair. *)
Definition load_config (env : gmap string string) : gmap string Py.value :=
  foldl (fun cfg kd => <[ kd.1 := Py.or_ (getenv env kd.1) kd.2 ]> cfg)
        ∅ key_defaults.

(** The value a key ends up with: that of the variable when it is set
    and not empty, the default otherwise. *)
Definition configured (env : gmap string string) (key : string) (default : Py.value)
  : Py.value :=
  match env !! key with
  | Some v => if String.eqb v "" then default else Py.Str v
  | None => default
  end.

End Config.


(** ** The host program *)

Module Host.
Import Config.

(** *** Collaborators *)

Inductive level : Type := INFO | WARNING | ERROR.

(** The function of the script that is handed to the scheduler. *)
Inductive callback : Type := CbDownloadIliasData.

(** The arguments of a [Task(t, f)] construction. *)
Record Task : Type := mkTask { timeOfDay : string; action : callback }.

Inductive exn : Type :=
| Exception (msg : string)
| KeyError (key : string)
| AttributeError
| TypeError
| IndexError
| CalledProcessError (cmd : string)
| UnicodeDecodeError
| OSError (msg : string)
| ConfigurationError (what : string).

(** One entry per call the script makes to its surroundings, with the
    arguments and the answer. *)
Inductive event : Type :=
| EvPathExists (p : string) (answer : bool)
| EvMakedirs (p : string)
| EvBasicConfig
| EvLoadDotenv
| EvLog (l : level) (msg : string)
| EvWhich (p : string) (found : bool)
| EvRun (command : string) (returncode : Z)
| EvCheckOutput (command : string) (out : option string)
| EvDialog (options : list string) (keys : option (list string))
           (title : string) (answer : Py.value)
| EvQuit
| EvTimeScheduler
| EvAdd (t : Task) (raised : option exn)
| EvStart
| EvWait.

#[global] Instance level_eq_dec : EqDecision level.
Proof. solve_decision. Defined.
#[global] Instance callback_eq_dec : EqDecision callback.
Proof. solve_decision. Defined.
#[global] Instance Task_eq_dec : EqDecision Task.
Proof. solve_decision. Defined.
#[global] Instance exn_eq_dec : EqDecision exn.
Proof. solve_decision. Defined.
#[global] Instance event_eq_dec : EqDecision event.
Proof. solve_decision. Defined.

(** The surroundings of the script.  [W] is the state of everything
    outside it; reads take the state, calls with an effect return the
    next one.  The [scheduler] and [console_input] modules are among the
    collaborators: the script only calls them. *)
Class World (W : Type) : Type := {
  (** [sys.platform] and [Path.home()] *)
  sys_platform : W → string;
  path_home : W → string;
  (** [load_dotenv()] and the process environment *)
  os_load_dotenv : W → W;
  os_environ : W → gmap string string;
  (** [os.path.exists], [os.makedirs], [shutil.which(p) is not None] *)
  os_path_exists : string → W → bool;
  os_makedirs : string → W → W;
  shutil_which : string → W → bool;
  (** [subprocess.run(c, shell=True).returncode] *)
  subprocess_run : string → W → Z * W;
  (** [subprocess.check_output(c, shell=True, encoding='UTF-8')]: the
      output, or [None] when the call raises; what it raises then is for
      the surroundings to say: [CalledProcessError] for a command that
      fails, [UnicodeDecodeError] for output that is not UTF-8, [OSError]
      when no shell can be started *)
  subprocess_check_output : string → W → option string * W;
  subprocess_check_output_error : string → W → exn;
  (** [console_input.show_selection_dialog(options, keys, title)] *)
  console_dialog : list string → option (list string) → string → W → Py.value * W;
  (** [TimeScheduler()], [ts.add(task)] (which may raise), [ts.start()] *)
  ts_new : W → W;
  ts_add : Task → W → option exn * W;
  ts_start : W → W;
}.

(** *** The monad of the script *)

Inductive outcome (A : Type) : Type :=
| Ok (a : A)             (** returned *)
| Raised (e : exn)       (** an exception nobody caught *)
| Exited                 (** [quit()] *)
| Blocked                (** [Event().wait()]: never returns *)
| OutOfFuel.             (** the model's loop bound was reached *)
Arguments Ok {A} a.
Arguments Raised {A} e.
Arguments Exited {A}.
Arguments Blocked {A}.
Arguments OutOfFuel {A}.

Section Script.
Context {W : Type} `{World W}.

(** A computation takes the world and returns its outcome, the next
    world and the events it produced, oldest first. *)
Definition M (A : Type) : Type := W → outcome A * W * list event.

Definition ret {A} (a : A) : M A := λ w, (Ok a, w, []).

Definition bind {A B} (m : M A) (k : A → M B) : M B :=
  λ w, match m w with
       | (Ok a, w1, t1) => let '(o, w2, t2) := k a w1 in (o, w2, t1 ++ t2)
       | (Raised e, w1, t1) => (Raised e, w1, t1)
       | (Exited, w1, t1) => (Exited, w1, t1)
       | (Blocked, w1, t1) => (Blocked, w1, t1)
       | (OutOfFuel, w1, t1) => (OutOfFuel, w1, t1)
       end.

Definition raise {A} (e : exn) : M A := λ w, (Raised e, w, []).

#[global] Instance M_ret : MRet M := @ret.
#[global] Instance M_bind : MBind M := λ A B k m, bind m k.

(** [for x in l: body(x)] *)
Fixpoint for_each {A} (l : list A) (body : A → M unit) : M unit :=
  match l with
  | [] => ret tt
  | x :: l' => body x;; for_each l' body
  end.

(** The calls to the surroundings, each leaving its event. *)
Definition path_exists (p : string) : M bool :=
  λ w, let b := os_path_exists p w in (Ok b, w, [EvPathExists p b]).
Definition makedirs (p : string) : M unit :=
  λ w, (Ok tt, os_makedirs p w, [EvMakedirs p]).
(** [logging.basicConfig(...)] with its two handlers, taken to return: a
    run in which the log file cannot be opened ('./data' is no directory
    that can be written to) ends here with the [OSError] of
    [logging.FileHandler], before the configuration is loaded.  What is
    stated about the main program is about the runs that come past this
    line; nothing is stated about the exceptions of the start-up. *)
Definition basicConfig : M unit := λ w, (Ok tt, w, [EvBasicConfig]).
Definition load_dotenv : M unit :=
  λ w, (Ok tt, os_load_dotenv w, [EvLoadDotenv]).
Definition logging (l : level) (msg : string) : M unit :=
  λ w, (Ok tt, w, [EvLog l msg]).
Definition which (p : string) : M bool :=
  λ w, let b := shutil_which p w in (Ok b, w, [EvWhich p b]).
Definition run (command : string) : M Z :=
  λ w, let '(rc, w') := subprocess_run command w in
       (Ok rc, w', [EvRun command rc]).
Definition check_output (command : string) : M string :=
  λ w, let '(r, w') := subprocess_check_output command w in
       (match r with
        | Some out => Ok out
        | None => Raised (subprocess_check_output_error command w)
        end, w', [EvCheckOutput command r]).
Definition show_selection_dialog (options : list string)
    (keys : option (list string)) (title : string) : M Py.value :=
  λ w, let '(a, w') := console_dialog options keys title w in
       (Ok a, w', [EvDialog options keys title a]).
Definition quit {A} : M A := λ w, (Exited, w, [EvQuit]).
Definition TimeScheduler : M unit := λ w, (Ok tt, ts_new w, [EvTimeScheduler]).
Definition add (t : Task) : M unit :=
  λ w, let '(r, w') := ts_add t w in
       (match r with
        | None => Ok tt
        | Some e => Raised e
        end, w', [EvAdd t r]).
Definition start : M unit := λ w, (Ok tt, ts_start w, [EvStart]).
Definition wait {A} : M A := λ w, (Blocked, w, [EvWait]).
Definition platform : M string := λ w, (Ok (sys_platform w), w, []).
Definition home : M string := λ w, (Ok (path_home w), w, []).
Definition environ : M (gmap string string) :=
  λ w, (Ok (os_environ w), w, []).
Definition out_of_fuel {A} : M A := λ w, (OutOfFuel, w, []).

(** [config[key]] on the global dictionary. *)
Definition item (config : gmap string Py.value) (key : string) : M Py.value :=
  match config !! key with
  | Some v => ret v
  | None => raise (KeyError key)
  end.


(** The double quote, a line feed and a tab, for the texts below. *)
Definition q : string := String Py.dquote EmptyString.
Definition nl : string := String (ascii_of_nat 10) EmptyString.
Definition tab : string := String (ascii_of_nat 9) EmptyString.

(** *** [unix_like] *)
Definition unix_like : M bool :=
  p ← platform;
  if Py.contains "win" p then mret false else mret true.

(** *** [upload_rclone] *)
Definition upload_command (r_name output_path_local output_path_remote : Py.value)
  : string :=
  "rclone copy --progress --ignore-existing "
  +:+ q +:+ Py.str output_path_local +:+ q +:+ " "
  +:+ q +:+ Py.str r_name +:+ ":" +:+ Py.str output_path_remote +:+ q.

Definition upload_rclone (config : gmap string Py.value)
    (output_path_local output_path_remote : Py.value) : M unit :=
  r_name ← item config RCLONE_REMOTE_NAME;
  let command := upload_command r_name output_path_local output_path_remote in
  (* execute the upload command *)
  _ ← run command;
  logging INFO "Cloud upload completed.".

(** *** [download_ilias_data] *)
Definition download_failed : string :=
  "Could not execute the ilias download command. "
  +:+ "If on linux/mac run: " +:+ nl +:+ tab
  +:+ "chmod +x KIT-ILIAS-downloader" +:+ nl
  +:+ "to make the downloader executable.".

(** The command line of the downloader, from the values read off the
    configuration; [sync] is the sync url when it is truthy. *)
Definition download_command (unix : bool) (user password jobs rate : Py.value)
    (sync : option Py.value) : string :=
  let command := if unix then "~/.cargo/bin/KIT-ILIAS-downloader"
                 else "KIT-ILIAS-downloader" in
  let command := command
    +:+ " -U " +:+ Py.str user
    +:+ " -P " +:+ q +:+ Py.str password +:+ q
    +:+ " -o " +:+ q +:+ "output" +:+ q
    +:+ " --jobs  " +:+ Py.str jobs
    +:+ " --rate " +:+ Py.str rate in
  match sync with
  | Some url => command +:+ " --sync-url " +:+ q +:+ Py.str url +:+ q
  | None => command
  end.

Definition download_ilias_data (config : gmap string Py.value) : M unit :=
  logging INFO "Starting ilias download...";;
  (* create the ilias downloader command *)
  u ← unix_like;
  user ← item config USER_NAME;
  password ← item config PASSWORD;
  jobs ← item config JOBS;
  rate ← item config RATE;
  sync ← item config SYNC_URL;
  sync ← (if Py.truthy sync
          then url ← item config SYNC_URL; mret (Some url)
          else mret None);
  let command := download_command u user password jobs rate sync in
  (* execute the command *)
  returncode ← run command;
  if returncode =? 0 then
    logging INFO "Download from ilias completed. Starting upload to the cloud...";;
    (* upload the new file *)
    remote ← item config CLOUD_OUTPUT_PATH;
    upload_rclone config (Py.Str "output") remote
  else
    raise (Exception download_failed).

(** *** [setup_ilias_downloader] *)
Definition setup_ilias_downloader : M unit :=
  u ← unix_like;
  missing ← (if u : bool
             then h ← home;
                  found ← which (h +:+ "/.cargo/bin/KIT-ILIAS-downloader");
                  mret (negb found)
             else mret false);
  if missing : bool then
    i ← show_selection_dialog ["yes"; "no"] (Some ["y"; "n"])
          "The KIT-ILIAS-downloader is not installed on this system. Auto install it?";
    if Py.eq_str i "y" then
      cargo ← which "cargo";
      (if negb cargo then
         (* install rust first *)
         logging INFO "Rust is not installed. Trying to auto install it...";;
         rc ← run "curl https://sh.rustup.rs -sSf | sh -s -- -y";
         if rc =? 0 then logging INFO "Rust was successfully installed."
         else raise (Exception
           ("Failed to auto install rust. "
            +:+ "Please try installing it manually at: https://www.rust-lang.org/tools/install"))
       else mret tt);;
      (* install the ilias downloader cli tool *)
      rc ← run ("cargo install --all-features "
                +:+ "--git 'https://github.com/FliegendeWurst/KIT-ILIAS-downloader' --branch stable");
      if rc =? 0
      then logging INFO "The KIT-ILIAS-downloader CLI tool was successfully installed."
      else raise (Exception
        ("Failed to install the KIT-ILIAS-downloader CLI tool."
         +:+ "Please try manually installing it at: "
         +:+ "https://github.com/fliegendewurst/kit-ilias-downloader"))
    else quit
  else mret tt.

(** *** [setup_rclone]: [true] when the remote is set up, [false] for
    the [None] it returns after an interactive set-up *)
Definition provider_options : list Py.value :=
  [Py.Str "drive"; Py.Str "dropbox"; Py.Str "onedrive"; Py.None_].

Definition setup_rclone (config : gmap string Py.value) : M bool :=
  (* check if rclone is installed *)
  rclone ← which "rclone";
  if negb rclone then
    raise (Exception
      ("Rclone is not installed on this system. It is needed to backup the files to the cloud!"
       +:+ "Install it here: https://rclone.org/"))
  else
    r_name ← item config RCLONE_REMOTE_NAME;
    (* get the available remotes *)
    out ← check_output "rclone listremotes";
    let remotes := Py.split out in
    if negb (bool_decide (Py.str r_name +:+ ":" ∈ remotes)) then
      (* setup is not yet complete *)
      i ← show_selection_dialog
            ["Yes (start interactive setup)"; "No (terminate)"] (Some ["y"; "n"])
            ("The remote '" +:+ Py.str r_name +:+ "' has not been set up yet. Set it up now?");
      if Py.eq_str i "y" then
        index ← show_selection_dialog
                  ["GoogleDrive"; "Dropbox"; "OneDrive"; "Other (manual setup using rclone)"]
                  None "Choose your cloud provider";
        command ←
          match index with
          | Py.Int z =>
              if z <? Z.of_nat (length provider_options) - 1 then
                (* set up the selected cloud *)
                match Py.index provider_options z with
                | None => raise IndexError
                | Some option =>
                    let command := "rclone config create " +:+ q +:+ Py.str r_name +:+ q
                                   +:+ " " +:+ Py.str option in
                    client_id ← item config CLIENT_ID;
                    both ← (if Py.truthy client_id
                            then client_secret ← item config CLIENT_SECRET;
                                 mret (Py.truthy client_secret)
                            else mret false);
                    if both : bool then
                      logging INFO "Using the provided client id and client secret.";;
                      client_id ← item config CLIENT_ID;
                      client_secret ← item config CLIENT_SECRET;
                      mret (command
                            +:+ " --" +:+ Py.str option +:+ "-client-id "
                            +:+ q +:+ Py.str client_id +:+ q
                            +:+ " --" +:+ Py.str option +:+ "-client-secret "
                            +:+ q +:+ Py.str client_secret +:+ q)
                    else
                      logging WARNING
                        "The drive client id and the client secret have not been set. Using defaults.";;
                      mret command
                end
              else mret "rclone config"
          | _ => raise TypeError
          end;
        (* run the setup command *)
        _ ← run command;
        mret false
      else quit
    else
      (* setup is complete *)
      mret true.

(** *** The main program *)

(** [config = load_config()]: the call of [load_dotenv] and the reading
    of the environment, around the table of [Config.load_config]. *)
Definition load_config : M (gmap string Py.value) :=
  load_dotenv;;
  env ← environ;
  mret (Config.load_config env).

(** [while not set_up_complete: set_up_complete = setup_rclone()];
    [fuel] bounds the number of rounds. *)
Fixpoint setup_loop (fuel : nat) (config : gmap string Py.value) : M unit :=
  match fuel with
  | O => out_of_fuel
  | S fuel' =>
      set_up_complete ← setup_rclone config;
      if set_up_complete : bool then mret tt else setup_loop fuel' config
  end.

(** The set-up part of the [else] branch: the downloader, then the
    cloud provider. *)
Definition setup (fuel : nat) (config : gmap string Py.value) : M unit :=
  setup_ilias_downloader;;
  setup_loop fuel config.

(** The first run: [if not os.path.exists('output'): download_ilias_data()]. *)
Definition initial_run (config : gmap string Py.value) : M unit :=
  e ← path_exists "output";
  if negb e then download_ilias_data config else mret tt.

(** [config['ILIAS_DOWNLOADER_UPLOAD_TIMES'].split()] *)
Definition upload_times (config : gmap string Py.value) : M (list string) :=
  v ← item config UPLOAD_TIMES;
  match v with
  | Py.Str s => mret (Py.split s)
  | _ => raise AttributeError
  end.

(** Schedule automatic downloads and uploads, then wait until manually
    stopped. *)
Definition schedule (config : gmap string Py.value) : M unit :=
  times ← upload_times config;
  logging INFO ("Scheduling automatic downloads for " +:+ Py.repr_list times);;
  TimeScheduler;;
  for_each times (λ t, add (mkTask t CbDownloadIliasData));;
  start;;
  wait.

Definition main (fuel : nat) : M unit :=
  (* create data folder *)
  e ← path_exists "./data";
  (if negb e then makedirs "./data" else mret tt);;
  (* setup logger *)
  basicConfig;;
  (* load the config *)
  config ← load_config;
  (* check if username and passwords are available *)
  user ← item config USER_NAME;
  if negb (Py.truthy user) then
    logging ERROR "The Ilias username has not been set"
  else
    password ← item config PASSWORD;
    if negb (Py.truthy password) then
      logging ERROR "The Ilias password has not been set"
    else
      setup fuel config;;
      initial_run config;;
      schedule config.


(** *** Reading a trace *)

(** A result with the events [tr] put in front of its own. *)
Definition emit {A} (tr : list event) (r : outcome A * W * list event)
  : outcome A * W * list event :=
  (r.1.1, r.1.2, tr ++ r.2).

(** The calls to the scheduler. *)
Definition is_scheduler_call (e : event) : bool :=
  match e with
  | EvTimeScheduler | EvAdd _ _ | EvStart => true
  | _ => false
  end.

(** The tasks handed to [add], in order. *)
Definition added (tr : list event) : list Task :=
  omap (λ e, match e with EvAdd t _ => Some t | _ => None end) tr.

(** The first statement of [download_ilias_data] and of nothing else. *)
Definition is_download_start (e : event) : bool :=
  match e with
  | EvLog INFO msg => String.eqb msg "Starting ilias download..."
  | _ => false
  end.

(** How often [download_ilias_data] was entered. *)
Definition downloads (tr : list event) : nat :=
  length (List.filter is_download_start tr).

(** A run of the [rclone copy] command of [upload_rclone]. *)
Definition is_upload (e : event) : bool :=
  match e with
  | EvRun command _ => String.prefix "rclone copy " command
  | _ => false
  end.

(** A call to an external tool or to the dialog. *)
Definition is_tool_call (e : event) : bool :=
  match e with
  | EvWhich _ _ | EvRun _ _ | EvCheckOutput _ _ | EvDialog _ _ _ _ => true
  | _ => false
  end.

(** A call of [add] that raised. *)
Definition is_rejection (e : event) : bool :=
  match e with
  | EvAdd _ (Some _) => true
  | _ => false
  end.


(** Every event of every run of [m] passes the test [P]. *)
Definition only {A} (P : event → bool) (m : M A) : Prop :=
  ∀ w, forallb P (m w).2 = true.

(** Neither a call to the scheduler nor the start of a download. *)
Definition is_preparation (e : event) : bool :=
  negb (is_scheduler_call e) && negb (is_download_start e).

(** The command line [download_ilias_data] runs in the world [w] under
    the environment [env]. *)
Definition download_command_of (env : gmap string string) (w : W) : string :=
  let sync := configured env SYNC_URL Py.None_ in
  download_command (negb (Py.contains "win" (sys_platform w)))
    (configured env USER_NAME Py.None_) (configured env PASSWORD Py.None_)
    (configured env JOBS (Py.Int 10)) (configured env RATE (Py.Int 100))
    (if Py.truthy sync then Some sync else None).

(** The time texts of an environment: the tokens of the variable, or
    of the default when it is unset or empty. *)
Definition times_of (env : gmap string string) : list string :=
  Py.split (Py.str (configured env UPLOAD_TIMES (Py.Str "00:00"))).

(** The events of the first lines of the main program, up to
    [load_config()], and the world they leave. *)
Definition startup_trace (w : W) : list event :=
  let e := os_path_exists "./data" w in
  [EvPathExists "./data" e] ++ (if e then [] else [EvMakedirs "./data"])
  ++ [EvBasicConfig; EvLoadDotenv].

Definition startup_world (w : W) : W :=
  os_load_dotenv (if os_path_exists "./data" w then w else os_makedirs "./data" w).

(** A variable that is unset or set to the empty string. *)
Definition unset_or_empty (env : gmap string string) (key : string) : bool :=
  match env !! key with
  | None => true
  | Some v => String.eqb v ""
  end.


(** *** Reading the set-up *)

(** The path [setup_ilias_downloader] looks the downloader up at, and the
    two installer commands it runs. *)
Definition downloader_path (w : W) : string :=
  path_home w +:+ "/.cargo/bin/KIT-ILIAS-downloader".

Definition rustup_command : string := "curl https://sh.rustup.rs -sSf | sh -s -- -y".

Definition cargo_install_command : string :=
  "cargo install --all-features "
  +:+ "--git 'https://github.com/FliegendeWurst/KIT-ILIAS-downloader' --branch stable".

(** The entry of [rclone listremotes] that [setup_rclone] looks for. *)
Definition remote_token (env : gmap string string) : string :=
  Py.str (configured env RCLONE_REMOTE_NAME (Py.Str "IliasDL-Cloud-Drive")) +:+ ":".

Definition is_check_output (e : event) : bool :=
  match e with
  | EvCheckOutput _ _ => true
  | _ => false
  end.

(** Not a sub-process that returned another code than 0. *)
Definition run_succeeded (e : event) : bool :=
  match e with
  | EvRun _ rc => rc =? 0
  | _ => true
  end.

(** The trace ends with a dialog answered by something else than 'y' and
    the [quit()] that follows it. *)
Definition refused (tr : list event) : Prop :=
  ∃ pre options keys title answer,
    tr = pre ++ [EvDialog options keys title answer; EvQuit]
    ∧ Py.eq_str answer "y" = false.





(** The command lines handed to [subprocess.run], in order. *)
Definition commands (tr : list event) : list string :=
  omap (λ e, match e with EvRun c _ => Some c | _ => None end) tr.

(** The command of the interactive set-up for a provider chosen from the
    list: with the client id and secret when both are configured. *)
Definition create_command (env : gmap string string) (provider : Py.value) : string :=
  let r_name := configured env RCLONE_REMOTE_NAME (Py.Str "IliasDL-Cloud-Drive") in
  let client_id := configured env CLIENT_ID Py.None_ in
  let client_secret := configured env CLIENT_SECRET Py.None_ in
  let command := "rclone config create " +:+ q +:+ Py.str r_name +:+ q
                 +:+ " " +:+ Py.str provider in
  if Py.truthy client_id && Py.truthy client_secret then
    command
    +:+ " --" +:+ Py.str provider +:+ "-client-id "
    +:+ q +:+ Py.str client_id +:+ q
    +:+ " --" +:+ Py.str provider +:+ "-client-secret "
    +:+ q +:+ Py.str client_secret +:+ q
  else command.

End Script.
End Host.

(** ** The time scheduler *)

Module Scheduler.

(** Modelled from the spec: the wall clock of the driver, which the
    [scheduler] module (not among the sources) reads.  An instant is a
    number of seconds since some midnight; a day has 86400 of them. *)
Definition day : Z := 86400.

(** Modelled from the spec: the time of day of a task (section 3), an hour
    and a minute; the class [Task] is in the module [scheduler], which is
    not among the sources. *)
Record TimeOfDay : Type := mkTime { hour : nat; minute : nat }.

#[global] Instance TimeOfDay_eq_dec : EqDecision TimeOfDay.
Proof. solve_decision. Defined.

(** Modelled from the spec: the seconds after midnight at which a time of
    day (section 3: hour and minute) falls. *)
Definition seconds (t : TimeOfDay) : Z :=
  3600 * Z.of_nat (hour t) + 60 * Z.of_nat (minute t).

(** Modelled from the spec: the value of a decimal digit, for the parser
    below. *)
Definition digit (c : ascii) : option nat :=
  let n := nat_of_ascii c in
  if (48 <=? n)%nat && (n <=? 57)%nat then Some (n - 48)%nat else None.

(** Modelled from the spec: reading a zero-padded 24-hour [HH:MM] text
    (section 4.1, input of [add]); the parser of the [scheduler] module is
    not among the sources.  Two digits, a colon, two digits, hour below 24
    and minute below 60. *)
Definition parse_time (s : string) : option TimeOfDay :=
  match list_ascii_of_string s with
  | [h1; h2; c; m1; m2] =>
      if Ascii.eqb c ":" then
        match digit h1, digit h2, digit m1, digit m2 with
        | Some a, Some b, Some x, Some y =>
            let h := (10 * a + b)%nat in
            let m := (10 * x + y)%nat in
            if (h <? 24)%nat && (m <? 60)%nat then Some (mkTime h m) else None
        | _, _, _, _ => None
        end
      else None
  | _ => None
  end.

(** The zero-padded text [HH:MM] of an hour and a minute. *)
Definition two_digits (n : nat) : string :=
  String (ascii_of_nat (48 + n / 10)) (String (ascii_of_nat (48 + n mod 10)) EmptyString).

Definition render (h m : nat) : string := two_digits h +:+ ":" +:+ two_digits m.

(** The specification's notion of a valid time text, stated apart from the
    parser: the text of one of the 24 * 60 pairs of an hour from 0 to 23
    and a minute from 0 to 59. *)
Definition valid_time (s : string) : bool :=
  existsb (λ h, existsb (λ m, String.eqb s (render h m)) (seq 0 60)) (seq 0 24).

(** Modelled from the spec: the driver algorithm of section 4.1, the next
    due instant of a time of day as seen at [now]: today at that time when
    the current time of day is before it, otherwise tomorrow at that
    time. *)
Definition next_due_instant (now : Z) (t : TimeOfDay) : Z :=
  let midnight := day * (now / day) in
  if now mod day <? seconds t then midnight + seconds t
  else midnight + day + seconds t.

(** Modelled from the spec: how an invocation of an action ends (section
    3: an action returns nothing and may raise). *)
Inductive result : Type :=
| Returned
| Raised (detail : string).

(** Modelled from the spec: what the scheduler does to its surroundings
    (section 6, output and reporting hook): it starts an action on a
    unit of execution of its own (reported as information), it reports an
    occurrence skipped because of an overlap (a warning), it reports the
    failure of an action (an error, with the captured detail).  [i] is the
    position of the task in the registry, [due] the due instant served and
    [seen] the instant of the check. *)
Inductive effect : Type :=
| Invoke (i : nat) (due seen : Z)
| Skip (i : nat) (due seen : Z)
| Failure (i : nat) (detail : string).

#[global] Instance effect_eq_dec : EqDecision effect.
Proof. solve_decision. Defined.

(** The task an effect is about. *)
Definition about (e : effect) : nat :=
  match e with
  | Invoke i _ _ => i
  | Skip i _ _ => i
  | Failure i _ => i
  end.

(** Modelled from the spec: what wakes the scheduler once it is started
    (section 5): the driver checking the clock, and the end of an
    invocation that ran on its own unit of execution. *)
Inductive signal : Type :=
| Tick (now : Z)
| Done (i : nat) (r : result).

(** Modelled from the spec: the error of [add] (section 7). *)
Inductive error : Type :=
| ConfigurationError (text : string).

Section Model.
Context {A : Type}.

(** Modelled from the spec: a task of section 3, a time of day and an
    action; [A] is the type of the actions. *)
Record Task : Type := mkTask { timeOfDay : TimeOfDay; action : A }.

(** Modelled from the spec: the driver's view of a task (sections 4.1 and
    5): its next due instant and whether an invocation of it is still
    executing. *)
Record entry : Type := mkEntry { task : Task; due : Z; in_flight : bool }.

(** Modelled from the spec: the [TimeScheduler] data model of section 3,
    with the driver's state of section 4.1; the class is in the module
    [scheduler], which is not among the sources. *)
Record TimeScheduler : Type := mkScheduler {
  tasks : list Task;
  running : bool;
  entries : list entry;
}.

(** Modelled from the spec: a new scheduler is stopped and has no task. *)
Definition new : TimeScheduler := mkScheduler [] false [].

(** Modelled from the spec: [add(timeOfDay, action)] of section 4.1: an
    invalid text fails with a [ConfigurationError]; a valid one appends
    a task to the registry. *)
Definition add (timeOfDay : string) (action : A) (ts : TimeScheduler)
  : option error * TimeScheduler :=
  match parse_time timeOfDay with
  | None => (Some (ConfigurationError timeOfDay), ts)
  | Some t => (None, mkScheduler (tasks ts ++ [mkTask t action]) (running ts) (entries ts))
  end.

(** Modelled from the spec: [start()] of section 4.1, at the instant
    [now] of the wall clock: the state becomes running and the driver
    begins with the next due instant of every registered task; a second
    call is a no-op. *)
Definition start (now : Z) (ts : TimeScheduler) : TimeScheduler :=
  if running ts then ts
  else mkScheduler (tasks ts) true
         (map (λ t, mkEntry t (next_due_instant now (timeOfDay t)) false) (tasks ts)).

(** Modelled from the spec: [stop()] of section 4.1. *)
Definition stop (ts : TimeScheduler) : TimeScheduler :=
  mkScheduler (tasks ts) false (entries ts).

(** Modelled from the spec: one check of one task at the instant [now]
    (driver algorithm and overlap policy of section 4.1).  A task whose
    due instant has come fires once, unless its previous invocation is
    still executing, in which case the occurrence is skipped; either way
    the next due instant is derived again from the wall clock. *)
Definition check (now : Z) (i : nat) (e : entry) : entry * list effect :=
  if due e <=? now then
    (mkEntry (task e) (next_due_instant now (timeOfDay (task e))) true,
     [if in_flight e then Skip i (due e) now else Invoke i (due e) now])
  else (e, []).

(** Modelled from the spec: the end of an invocation of task [j]
    (failure semantics of section 4.1): an exception of the action is
    caught where the action was called and reported; the task is free
    again either way. *)
Definition finish (j : nat) (r : result) (i : nat) (e : entry) : entry * list effect :=
  if bool_decide (i = j) then
    (mkEntry (task e) (due e) false,
     match r with
     | Returned => []
     | Raised detail => [Failure i detail]
     end)
  else (e, []).

(** Modelled from the spec: what a signal does to the entry at position
    [i]. *)
Definition react (s : signal) (i : nat) (e : entry) : entry * list effect :=
  match s with
  | Tick now => check now i e
  | Done j r => finish j r i e
  end.

(** Modelled from the spec: one step of a scheduler.  The driver checks
    nothing unless the scheduler is running; the end of an invocation
    that is in flight is always taken. *)
Definition step (s : signal) (ts : TimeScheduler) : TimeScheduler * list effect :=
  let live := match s with Tick _ => running ts | Done _ _ => true end in
  if live then
    let r := imap (react s) (entries ts) in
    (mkScheduler (tasks ts) (running ts) (r.*1), concat (r.*2))
  else (ts, []).

(** Modelled from the spec: a run of the driver, the signals in order and
    the effects in order. *)
Fixpoint drive (l : list signal) (ts : TimeScheduler) : TimeScheduler * list effect :=
  match l with
  | [] => (ts, [])
  | s :: l' =>
      let '(ts1, out1) := step s ts in
      let '(ts2, out2) := drive l' ts1 in
      (ts2, out1 ++ out2)
  end.

(** *** Reading a run *)

(** What a run does to the entry at position [i] alone. *)
Fixpoint follow (l : list signal) (i : nat) (e : entry) : entry * list effect :=
  match l with
  | [] => (e, [])
  | s :: l' =>
      let '(e1, out1) := react s i e in
      let '(e2, out2) := follow l' i e1 in
      (e2, out1 ++ out2)
  end.




End Model.

Arguments Task A : clear implicits.
Arguments entry A : clear implicits.
Arguments TimeScheduler A : clear implicits.

(** An hour below 24 and a minute below 60. *)
Definition in_range (t : TimeOfDay) : bool :=
  (hour t <? 24)%nat && (minute t <? 60)%nat.

(** The instant [o] falls on the time of day [t]. *)
Definition occurrence (t : TimeOfDay) (o : Z) : Prop := o mod day = seconds t.





(** The effects that are about task [i]. *)
Definition of_task (i : nat) (out : list effect) : list effect :=
  List.filter (λ x, (about x =? i)%nat) out.

(** Nothing in the signal concerns task [i] before the instant [d]: a
    check is earlier than [d], an invocation that ends is of another
    task. *)
Definition quiet_before (d : Z) (i : nat) (s : signal) : bool :=
  match s with
  | Tick now => now <? d
  | Done j _ => negb (j =? i)%nat
  end.


(** A scheduler with one task, at midnight. *)
Definition nightly : TimeScheduler unit := (add "00:00" tt new).2.

(** The scheduler of the scenario of section 8: a task at 00:00 and a task
    at 12:30. *)
Definition twice_a_day : TimeScheduler unit :=
  (add "12:30" tt (add "00:00" tt new).2).2.

(** An instant given as hours, minutes and seconds since the first
    midnight. *)
Definition clock (h m s : Z) : Z := 3600 * h + 60 * m + s.

End Scheduler.

(** ** A scripted world

    A concrete instance of the surroundings, used to run the script on
    examples: the answers of sub-processes and of the dialog are read off
    lists, and the scheduler is the one of [Scheduler]. *)

Module Scripted.
Import Host.

Record world : Type := mkWorld {
  w_platform : string;
  w_home : string;
  w_dotenv : gmap string string;     (** the content of the [.env] file *)
  w_environ : gmap string string;
  w_paths : list string;             (** the paths that exist *)
  w_programs : list string;          (** what [which] finds *)
  w_returncodes : list Z;            (** of the next calls of [subprocess.run] *)
  w_outputs : list (option string);  (** of the next calls of [check_output] *)
  w_answers : list Py.value;         (** of the next dialogs *)
  w_clock : Z;
  w_scheduler : option (Scheduler.TimeScheduler callback);
  w_error : string → exn;            (** what a failing [check_output] raises *)
}.

Definition set_environ (f : gmap string string → gmap string string) (w : world) : world :=
  mkWorld (w_platform w) (w_home w) (w_dotenv w) (f (w_environ w)) (w_paths w)
          (w_programs w) (w_returncodes w) (w_outputs w) (w_answers w)
          (w_clock w) (w_scheduler w) (w_error w).
Definition set_paths (f : list string → list string) (w : world) : world :=
  mkWorld (w_platform w) (w_home w) (w_dotenv w) (w_environ w) (f (w_paths w))
          (w_programs w) (w_returncodes w) (w_outputs w) (w_answers w)
          (w_clock w) (w_scheduler w) (w_error w).
Definition set_returncodes (l : list Z) (w : world) : world :=
  mkWorld (w_platform w) (w_home w) (w_dotenv w) (w_environ w) (w_paths w)
          (w_programs w) l (w_outputs w) (w_answers w)
          (w_clock w) (w_scheduler w) (w_error w).
Definition set_outputs (l : list (option string)) (w : world) : world :=
  mkWorld (w_platform w) (w_home w) (w_dotenv w) (w_environ w) (w_paths w)
          (w_programs w) (w_returncodes w) l (w_answers w)
          (w_clock w) (w_scheduler w) (w_error w).
Definition set_answers (l : list Py.value) (w : world) : world :=
  mkWorld (w_platform w) (w_home w) (w_dotenv w) (w_environ w) (w_paths w)
          (w_programs w) (w_returncodes w) (w_outputs w) l
          (w_clock w) (w_scheduler w) (w_error w).
Definition set_scheduler (o : option (Scheduler.TimeScheduler callback)) (w : world) : world :=
  mkWorld (w_platform w) (w_home w) (w_dotenv w) (w_environ w) (w_paths w)
          (w_programs w) (w_returncodes w) (w_outputs w) (w_answers w)
          (w_clock w) o (w_error w).

(** [ts.add(Task(t, f))] on the modelled scheduler. *)
Definition scripted_add (t : Task) (w : world) : option exn * world :=
  match w_scheduler w with
  | None => (Some AttributeError, w)
  | Some ts =>
      match Scheduler.add (timeOfDay t) (action t) ts with
      | (Some (Scheduler.ConfigurationError text), ts') =>
          (Some (ConfigurationError text), set_scheduler (Some ts') w)
      | (None, ts') => (None, set_scheduler (Some ts') w)
      end
  end.

#[global] Instance scripted_world : World world := {
  sys_platform := w_platform;
  path_home := w_home;
  (* variables already set win over the file *)
  os_load_dotenv w := set_environ (λ env, env ∪ w_dotenv w) w;
  os_environ := w_environ;
  os_path_exists p w := bool_decide (p ∈ w_paths w);
  os_makedirs p w := set_paths (cons p) w;
  shutil_which p w := bool_decide (p ∈ w_programs w);
  subprocess_run _ w :=
    match w_returncodes w with
    | [] => (0, w)
    | rc :: l => (rc, set_returncodes l w)
    end;
  subprocess_check_output _ w :=
    match w_outputs w with
    | [] => (Some "", w)
    | o :: l => (o, set_outputs l w)
    end;
  subprocess_check_output_error c w := w_error w c;
  console_dialog _ _ _ w :=
    match w_answers w with
    | [] => (Py.None_, w)
    | a :: l => (a, set_answers l w)
    end;
  ts_new w := set_scheduler (Some Scheduler.new) w;
  ts_add := scripted_add;
  ts_start w := set_scheduler (Scheduler.start (w_clock w) <$> w_scheduler w) w;
}.

(** A Linux machine on which the downloader and rclone are installed and
    the remote is set up; [env] is the environment, [paths] the existing
    paths, [codes] the return codes of the sub-processes to come. *)
Definition installed (env : list (string * string)) (paths : list string)
    (codes : list Z) : world :=
  mkWorld "linux" "/home/kit" ∅ (list_to_map env) paths
          ["/home/kit/.cargo/bin/KIT-ILIAS-downloader"; "rclone"; "cargo"]
          codes [Some ("IliasDL-Cloud-Drive:" +:+ nl)] [] 86280 None CalledProcessError.

Definition credentials : list (string * string) :=
  [(Config.USER_NAME, "uxxxx"); (Config.PASSWORD, "secret")].

(** Worlds for the examples: a machine where 'output' exists; a first
    run whose download succeeds; a first run whose downloader returns
    code 1; no credentials. *)
Definition w_output_exists : world := installed credentials ["output"] [].
Definition w_first_run : world := installed credentials [] [0; 0].
Definition w_download_fails : world := installed credentials [] [1].
Definition w_no_credentials : world := installed [] [] [].


(** More worlds: a Mac; a Linux machine without the downloader, with
    [cargo], whose user agrees to the installation; the same with a user
    who declines; a machine without rclone; a machine on which the remote
    is not set up, whose user agrees, picks the first provider and sees
    the set-up command return code 1, after which the remote is listed; a
    machine on which the output of [rclone listremotes] is not UTF-8. *)
Definition w_darwin : world :=
  mkWorld "darwin" "/Users/kit" ∅ (list_to_map credentials) ["output"]
          ["rclone"] [] [Some ("IliasDL-Cloud-Drive:" +:+ nl)] [] 86280 None CalledProcessError.
Definition w_install : world :=
  mkWorld "linux" "/home/kit" ∅ (list_to_map credentials) ["output"]
          ["rclone"; "cargo"] [0] [Some ("IliasDL-Cloud-Drive:" +:+ nl)]
          [Py.Str "y"] 86280 None CalledProcessError.
Definition w_declines : world :=
  mkWorld "linux" "/home/kit" ∅ (list_to_map credentials) ["output"]
          ["rclone"; "cargo"] [] [Some ("IliasDL-Cloud-Drive:" +:+ nl)]
          [Py.Str "n"] 86280 None CalledProcessError.
Definition w_no_rclone : world :=
  mkWorld "linux" "/home/kit" ∅ (list_to_map credentials) ["output"]
          ["/home/kit/.cargo/bin/KIT-ILIAS-downloader"] [] [] [] 86280 None CalledProcessError.
Definition w_new_remote : world :=
  mkWorld "linux" "/home/kit" ∅ (list_to_map credentials) ["output"]
          ["/home/kit/.cargo/bin/KIT-ILIAS-downloader"; "rclone"; "cargo"]
          [1] [Some ""; Some ("IliasDL-Cloud-Drive:" +:+ nl)]
          [Py.Str "y"; Py.Int 0] 86280 None CalledProcessError.
Definition w_undecodable : world :=
  mkWorld "linux" "/home/kit" ∅ (list_to_map credentials) ["output"]
          ["/home/kit/.cargo/bin/KIT-ILIAS-downloader"; "rclone"; "cargo"]
          [] [None] [] 86280 None (λ _, UnicodeDecodeError).

End Scripted.

(** * Facts about the time scheduler *)

Section SchedulerFacts.
Import Scheduler.

(** ** Time texts *)

Lemma digit_inv (c : ascii) (n : nat) :
  digit c = Some n → (n < 10)%nat ∧ c = ascii_of_nat (48 + n).
Proof.
  unfold digit. intros Hd.
  destruct ((48 <=? nat_of_ascii c)%nat && (nat_of_ascii c <=? 57)%nat) eqn:Hr; [|done].
  apply andb_true_iff in Hr as [Hlo%Nat.leb_le Hhi%Nat.leb_le].
  injection Hd as <-. split; [lia|].
  replace (48 + (nat_of_ascii c - 48))%nat with (nat_of_ascii c) by lia.
  by rewrite ascii_nat_embedding.
Qed.

Lemma two_digits_tens (a b : nat) :
  (b < 10)%nat →
  two_digits (10 * a + b)
  = String (ascii_of_nat (48 + a)) (String (ascii_of_nat (48 + b)) EmptyString).
Proof.
  intros Hb. unfold two_digits.
  assert ((10 * a + b) / 10 = a)%nat as -> by (symmetry; apply (Nat.div_unique _ 10 a b); lia).
  assert ((10 * a + b) mod 10 = b)%nat as -> by (symmetry; apply (Nat.mod_unique _ 10 a b); lia).
  reflexivity.
Qed.

(** A text that parses is the text [HH:MM] of an hour and a minute in
    range. *)
Lemma parse_time_render (s : string) (t : TimeOfDay) :
  parse_time s = Some t →
  s = render (hour t) (minute t) ∧ (hour t < 24)%nat ∧ (minute t < 60)%nat.
Proof.
  unfold parse_time. intros Hp.
  rewrite <- (string_of_list_ascii_of_string s).
  destruct (list_ascii_of_string s) as [|h1 [|h2 [|c [|m1 [|m2 [|? ?]]]]]]; try done.
  destruct (Ascii.eqb_spec c ":") as [->|]; [|done].
  destruct (digit h1) as [a|] eqn:H1; [|done].
  destruct (digit h2) as [b|] eqn:H2; [|done].
  destruct (digit m1) as [x|] eqn:H3; [|done].
  destruct (digit m2) as [y|] eqn:H4; [|done].
  destruct ((10 * a + b <? 24)%nat && (10 * x + y <? 60)%nat) eqn:Hr; [|done].
  apply andb_true_iff in Hr as [Hh%Nat.ltb_lt Hm%Nat.ltb_lt].
  assert (t = mkTime (10 * a + b) (10 * x + y)) as -> by congruence.
  clear Hp. cbn [hour minute].
  apply digit_inv in H1 as [_ ->]. apply digit_inv in H2 as [Hb ->].
  apply digit_inv in H3 as [_ ->]. apply digit_inv in H4 as [Hy ->].
  split; [|done]. unfold render.
  by rewrite (two_digits_tens a b Hb), (two_digits_tens x y Hy).
Qed.

Lemma valid_time_render (h m : nat) :
  (h < 24)%nat → (m < 60)%nat → valid_time (render h m) = true.
Proof.
  intros Hh Hm. unfold valid_time.
  apply existsb_exists. exists h. split; [apply in_seq; lia|].
  apply existsb_exists. exists m. split; [apply in_seq; lia|].
  apply String.eqb_refl.
Qed.

Lemma parse_time_invalid (s : string) : valid_time s = false → parse_time s = None.
Proof.
  intros Hv. destruct (parse_time s) as [t|] eqn:Hp; [|done].
  apply parse_time_render in Hp as (-> & Hh & Hm).
  by rewrite valid_time_render in Hv.
Qed.

(** Every valid text parses, to its hour and minute. *)
Lemma parse_time_valid (s : string) :
  valid_time s = true → ∃ t, parse_time s = Some t ∧ in_range t = true.
Proof.
  unfold valid_time. intros (h & Hh & (m & Hm & ->%String.eqb_eq)%existsb_exists)%existsb_exists.
  assert (Hall : forallb (λ h, forallb (λ m,
                   bool_decide (parse_time (render h m) = Some (mkTime h m)))
                   (seq 0 60)) (seq 0 24) = true) by (vm_compute; reflexivity).
  rewrite forallb_forall in Hall. specialize (Hall h Hh).
  rewrite forallb_forall in Hall. specialize (Hall m Hm).
  apply bool_decide_eq_true_1 in Hall.
  exists (mkTime h m). split; [done|].
  apply in_seq in Hh. apply in_seq in Hm. unfold in_range. cbn [hour minute].
  apply andb_true_iff. split; apply Nat.ltb_lt; lia.
Qed.

(** A valid text is accepted: [add] appends the task of its hour and
    minute, which are in range, and changes nothing else. *)
Lemma add_valid_time {A : Type} (s : string) (a : A) (ts : TimeScheduler A) :
  valid_time s = true →
  ∃ t, in_range t = true
       ∧ s = render (hour t) (minute t)
       ∧ add s a ts = (None, mkScheduler (tasks ts ++ [mkTask t a]) (running ts) (entries ts)).
Proof.
  intros (t & Hp & Ht)%parse_time_valid. exists t. split; [done|]. split.
  - by apply parse_time_render in Hp as [? _].
  - unfold add. by rewrite Hp.
Qed.

(** ** Due instants *)

Lemma seconds_range (t : TimeOfDay) : in_range t = true → 0 ≤ seconds t < day.
Proof.
  unfold in_range, seconds, day.
  intros [Hh%Nat.ltb_lt Hm%Nat.ltb_lt]%andb_true_iff. lia.
Qed.

Lemma next_due_occurrence (now : Z) (t : TimeOfDay) :
  in_range t = true → occurrence t (next_due_instant now t).
Proof.
  intros Ht%seconds_range. unfold occurrence, next_due_instant, day in *.
  destruct (Z.ltb_spec (now mod 86400) (seconds t)); Z.div_mod_to_equations; lia.
Qed.

Lemma next_due_bounds (now : Z) (t : TimeOfDay) :
  in_range t = true → now < next_due_instant now t ≤ now + day.
Proof.
  intros Ht%seconds_range. unfold next_due_instant, day in *.
  destruct (Z.ltb_spec (now mod 86400) (seconds t)); Z.div_mod_to_equations; lia.
Qed.

Lemma occurrence_gap (t : TimeOfDay) (o o' : Z) :
  occurrence t o → occurrence t o' → o < o' → o + day ≤ o'.
Proof. unfold occurrence, day. intros Ho Ho' Hlt. Z.div_mod_to_equations. lia. Qed.

(** The next due instant is the first occurrence after [now]. *)
Lemma next_due_least (now o : Z) (t : TimeOfDay) :
  in_range t = true → occurrence t o → now < o → next_due_instant now t ≤ o.
Proof.
  intros Ht Ho Hlt.
  pose proof (next_due_occurrence now t Ht) as Hn.
  pose proof (next_due_bounds now t Ht) as Hb.
  destruct (Z.le_gt_cases (next_due_instant now t) o) as [|Hgt]; [done|].
  pose proof (occurrence_gap t _ _ Ho Hn Hgt). lia.
Qed.


(** The due instant after an occurrence that was served within a day is
    the occurrence of the next day. *)
Lemma next_due_tomorrow (o now : Z) (t : TimeOfDay) :
  in_range t = true → occurrence t o → o ≤ now < o + day →
  next_due_instant now t = o + day.
Proof.
  intros Ht Ho Hnow.
  pose proof (next_due_occurrence now t Ht) as Hn.
  pose proof (next_due_bounds now t Ht) as Hb.
  assert (Ho' : occurrence t (o + day)).
  { unfold occurrence, day in *. Z.div_mod_to_equations. lia. }
  assert (now < o + day) as Hlt by lia.
  pose proof (next_due_least now (o + day) t Ht Ho' Hlt).
  assert (o < next_due_instant now t) as Hgt by lia.
  pose proof (occurrence_gap t o (next_due_instant now t) Ho Hn Hgt). lia.
Qed.


(** ** One task along a run *)





Context {A : Type}.



Lemma react_about (s : signal) (i : nat) (e : entry A) (x : effect) :
  x ∈ (react s i e).2 → about x = i.
Proof.
  destruct s as [now|j res]; cbn [react].
  - unfold check. destruct (due e <=? now); cbn [snd]; [|by intros ?%elem_of_nil].
    intros ->%list_elem_of_singleton. by destruct (in_flight e).
  - unfold finish. destruct (bool_decide (i = j)), res; cbn [snd];
      try (by intros ?%elem_of_nil). by intros ->%list_elem_of_singleton.
Qed.

(** ** From the scheduler to one of its tasks *)

Lemma of_task_app (i : nat) (out1 out2 : list effect) :
  of_task i (out1 ++ out2) = of_task i out1 ++ of_task i out2.
Proof. apply List.filter_app. Qed.


Lemma of_task_all (i : nat) (out : list effect) :
  (∀ x, x ∈ out → about x = i) → of_task i out = out.
Proof.
  unfold of_task. induction out as [|x out IH]; intros Hall; [done|]. cbn.
  rewrite (Hall x) by (by left). rewrite Nat.eqb_refl. f_equal.
  apply IH. intros y Hy. apply Hall. by right.
Qed.

Lemma of_task_none (i : nat) (out : list effect) :
  (∀ x, x ∈ out → about x ≠ i) → of_task i out = [].
Proof.
  unfold of_task. induction out as [|x out IH]; intros Hall; [done|]. cbn.
  destruct (Nat.eqb_spec (about x) i) as [Heq|_].
  - exfalso. by apply (Hall x); [left|].
  - apply IH. intros y Hy. apply Hall. by right.
Qed.


Lemma elem_of_concat_imap (f : nat → entry A → entry A * list effect)
    (es : list (entry A)) (x : effect) :
  x ∈ concat (imap f es).*2 → ∃ j e, es !! j = Some e ∧ x ∈ (f j e).2.
Proof.
  revert f. induction es as [|e0 es IH]; intros f; cbn.
  { by intros ?%elem_of_nil. }
  intros [Hin|Hin]%elem_of_app.
  - by exists 0%nat, e0.
  - destruct (IH _ Hin) as (j & e & Hj & Hx). by exists (S j), e.
Qed.

Lemma of_task_concat_imap (f : nat → entry A → entry A * list effect)
    (es : list (entry A)) (k i : nat) (e : entry A) :
  (∀ j e x, x ∈ (f j e).2 → about x = (k + j)%nat) →
  es !! i = Some e →
  of_task (k + i) (concat (imap f es).*2) = (f i e).2.
Proof.
  revert f k i. induction es as [|e0 es IH]; intros f k i Hf Hi; [done|].
  rewrite imap_cons, fmap_cons. cbn [concat]. rewrite of_task_app.
  destruct i as [|i].
  - injection Hi as ->. rewrite of_task_all by apply Hf.
    rewrite of_task_none; [by rewrite app_nil_r|].
    intros x (j & e' & _ & Hx)%elem_of_concat_imap.
    apply Hf in Hx. cbn in Hx. lia.
  - rewrite of_task_none.
    + cbn [app]. replace (k + S i)%nat with (S k + i)%nat by lia.
      apply (IH (f ∘ S) (S k) i); [|done].
      intros j e' x Hx. apply Hf in Hx. lia.
    + intros x Hx%Hf. lia.
Qed.

Lemma step_project (s : signal) (ts : TimeScheduler A) (i : nat) (e : entry A) :
  running ts = true → entries ts !! i = Some e →
  entries (step s ts).1 !! i = Some (react s i e).1
  ∧ of_task i (step s ts).2 = (react s i e).2
  ∧ running (step s ts).1 = true
  ∧ tasks (step s ts).1 = tasks ts.
Proof.
  intros Hrun Hi. unfold step. rewrite Hrun.
  assert (Hlive : match s with Tick _ => true | Done _ _ => true end = true)
    by by destruct s.
  rewrite Hlive. cbn [fst snd entries running tasks].
  split; [|split; [|done]].
  - by rewrite list_lookup_fmap, list_lookup_imap, Hi.
  - apply (of_task_concat_imap (react s) (entries ts) 0 i e); [|done].
    intros j e' x. apply react_about.
Qed.

Lemma drive_project (l : list signal) (ts : TimeScheduler A) (i : nat) (e : entry A) :
  running ts = true → entries ts !! i = Some e →
  entries (drive l ts).1 !! i = Some (follow l i e).1
  ∧ of_task i (drive l ts).2 = (follow l i e).2
  ∧ running (drive l ts).1 = true
  ∧ tasks (drive l ts).1 = tasks ts.
Proof.
  revert ts e. induction l as [|s l IH]; intros ts e Hrun Hi; [done|].
  cbn [drive follow].
  destruct (step_project s ts i e Hrun Hi) as (Hi1 & Hout1 & Hrun1 & Htasks1).
  destruct (step s ts) as [ts1 out1]. cbn [fst snd] in *.
  destruct (IH ts1 _ Hrun1 Hi1) as (Hi2 & Hout2 & Hrun2 & Htasks2).
  destruct (drive l ts1) as [ts2 out2].
  destruct (react s i e) as [e1 o1]. cbn [fst snd] in *.
  destruct (follow l i e1) as [e2 o2]. cbn [fst snd] in *.
  rewrite of_task_app, Hout1, Hout2, Htasks2. done.
Qed.




Lemma follow_app (l1 l2 : list signal) (i : nat) (e : entry A) :
  follow (l1 ++ l2) i e
  = ((follow l2 i (follow l1 i e).1).1, (follow l1 i e).2 ++ (follow l2 i (follow l1 i e).1).2).
Proof.
  revert e. induction l1 as [|s l1 IH]; intros e; cbn [app follow fst snd].
  { by destruct (follow l2 i e). }
  destruct (react s i e) as [e1 out1]. rewrite IH.
  destruct (follow l1 i e1) as [e2 out2]. cbn [fst snd].
  by rewrite app_assoc.
Qed.

(** Signals that do not concern a free task before its due instant leave
    its entry alone. *)
Lemma follow_quiet (l : list signal) (i : nat) (e : entry A) :
  forallb (quiet_before (due e) i) l = true → in_flight e = false →
  follow l i e = (e, []).
Proof.
  intros Hq Hfree. induction l as [|s l IH]; [done|].
  cbn in Hq. apply andb_true_iff in Hq as [Hs Hq]. cbn [follow].
  assert (react s i e = (e, [])) as ->.
  { destruct s as [now|j res]; cbn in *.
    - unfold check. apply Z.ltb_lt in Hs.
      destruct (Z.leb_spec (due e) now); [lia|done].
    - unfold finish. apply negb_true_iff, Nat.eqb_neq in Hs.
      by rewrite bool_decide_eq_false_2. }
  by rewrite (IH Hq).
Qed.

(** How an invocation ended makes no difference to the state. *)
Lemma step_done_state (j : nat) (r r' : result) (ts : TimeScheduler A) :
  (step (Done j r) ts).1 = (step (Done j r') ts).1.
Proof.
  unfold step. cbn [fst]. f_equal.
  apply list_eq. intros i.
  rewrite !list_lookup_fmap, !list_lookup_imap.
  destruct (entries ts !! i) as [e|]; [|done]. cbn.
  unfold finish. by destruct (bool_decide (i = j)).
Qed.

(** ** The claims about the scheduler *)

(** C6: for every text that is not a valid time of day (not of the form
    HH:MM with an hour from 0 to 23 and a minute from 0 to 59, such as
    "25:61" or "noon"), [add] fails with a [ConfigurationError] and leaves
    the scheduler as it was: the task is not registered and the driver is
    not started. *)
Theorem add_rejects_invalid_time (s : string) (a : A) (ts : TimeScheduler A) :
  valid_time s = false →
  add s a ts = (Some (ConfigurationError s), ts)
  ∧ tasks (add s a ts).2 = tasks ts
  ∧ running (add s a ts).2 = running ts
  ∧ entries (add s a ts).2 = entries ts
  ∧ valid_time "25:61" = false
  ∧ valid_time "noon" = false.
Proof.
  intros Hv. unfold add. rewrite (parse_time_invalid s Hv). by repeat split.
Qed.


(** C7: if the action of a task raises during an invocation, the
    exception stays with that invocation: the scheduler reports the
    failure, keeps running, keeps the task, and is in the same state as
    after a normal return; the occurrence of the next day is fired as it
    would have been. *)
Theorem failure_is_contained (ts : TimeScheduler A) (i : nat) (e : entry A)
    (detail : string) (c0 c : Z) (later : list signal) :
  let t := timeOfDay (task e) in
  let run r := drive (Tick c0 :: Done i r :: later ++ [Tick c]) ts in
  running ts = true →
  entries ts !! i = Some e →
  in_range t = true →
  occurrence t (due e) →
  in_flight e = false →
  due e ≤ c0 < due e + day →
  forallb (quiet_before (due e + day) i) later = true →
  due e + day ≤ c →
  of_task i (run (Raised detail)).2
    = [Invoke i (due e) c0; Failure i detail; Invoke i (due e + day) c]
  ∧ of_task i (run Returned).2 = [Invoke i (due e) c0; Invoke i (due e + day) c]
  ∧ (run (Raised detail)).1 = (run Returned).1
  ∧ running (run (Raised detail)).1 = true
  ∧ tasks (run (Raised detail)).1 = tasks ts.
Proof.
  cbn zeta. intros Hrun Hi Ht Hocc Hfree Hc0 Hquiet Hc.
  assert (Hfollow : ∀ r,
    (follow (Tick c0 :: Done i r :: later ++ [Tick c]) i e).2
    = [Invoke i (due e) c0]
      ++ match r with Returned => [] | Raised d => [Failure i d] end
      ++ [Invoke i (due e + day) c]).
  { intros r. cbn [follow react]. unfold check at 1.
    destruct (Z.leb_spec (due e) c0) as [_|]; [|lia].
    rewrite Hfree, (next_due_tomorrow (due e) c0 _ Ht Hocc Hc0).
    unfold finish at 1. rewrite bool_decide_eq_true_2 by done. cbn [task due].
    set (e2 := mkEntry (task e) (due e + day) false).
    rewrite follow_app, (follow_quiet later i e2 Hquiet eq_refl). cbn [fst snd app].
    cbn [follow react]. unfold check.
    destruct (Z.leb_spec (due e2) c) as [_|Hlt]; [|cbn in Hlt; lia].
    cbn. by destruct r. }
  destruct (drive_project (Tick c0 :: Done i (Raised detail) :: later ++ [Tick c])
              ts i e Hrun Hi) as (_ & Hout1 & Hrun1 & Htasks1).
  destruct (drive_project (Tick c0 :: Done i Returned :: later ++ [Tick c])
              ts i e Hrun Hi) as (_ & Hout2 & _ & _).
  rewrite Hout1, Hout2, !Hfollow.
  split; [done|split; [done|split; [|done]]].
  cbn [drive]. destruct (step (Tick c0) ts) as [ts1 out1].
  pose proof (step_done_state i (Raised detail) Returned ts1) as Hsame.
  destruct (step (Done i (Raised detail)) ts1) as [ts2 out2].
  destruct (step (Done i Returned) ts1) as [ts2' out2']. cbn [fst] in Hsame. subst ts2'.
  by destruct (drive (later ++ [Tick c]) ts2).
Qed.

End SchedulerFacts.

(** * Facts about the configuration *)

Section ConfigFacts.
Import Config.

Lemma or_getenv (env : gmap string string) (key : string) (default : Py.value) :
  Py.or_ (getenv env key) default =
  match env !! key with
  | Some v => if String.eqb v "" then default else Py.Str v
  | None => default
  end.
Proof.
  unfold Py.or_, getenv. destruct (env !! key) as [v|]; [|done].
  simpl. by destruct (String.eqb v "").
Qed.

Lemma load_config_lookup (env : gmap string string) :
  Forall (λ kd, load_config env !! kd.1 = Some (configured env kd.1 kd.2)) key_defaults.
Proof.
  unfold load_config, key_defaults. cbn [foldl fst snd].
  rewrite !or_getenv. fold (configured env).
  repeat constructor; cbn [fst snd]; by simplify_map_eq.
Qed.

End ConfigFacts.

(** * Facts about the host program *)

Section HostFacts.
Import Config Host.
Context {W : Type} `{World W}.

(** ** Running the monad by rewriting *)

Lemma bind_unfold {A B} (m : M A) (k : A → M B) (w : W) :
  (m ≫= k) w =
  match m w with
  | (Ok a, w1, t1) => emit t1 (k a w1)
  | (Raised e, w1, t1) => (Raised e, w1, t1)
  | (Exited, w1, t1) => (Exited, w1, t1)
  | (Blocked, w1, t1) => (Blocked, w1, t1)
  | (OutOfFuel, w1, t1) => (OutOfFuel, w1, t1)
  end.
Proof.
  change ((m ≫= k) w) with (bind m k w). unfold bind, emit.
  destruct (m w) as [[[a|e| | |] w1] t1]; try reflexivity.
  by destruct (k a w1) as [[o w2] t2].
Qed.

Lemma emit_nil {A} (r : outcome A * W * list event) : emit [] r = r.
Proof. by destruct r as [[o w] t]. Qed.

Lemma emit_emit {A} (t1 t2 : list event) (r : outcome A * W * list event) :
  emit t1 (emit t2 r) = emit (t1 ++ t2) r.
Proof. unfold emit. cbn. by rewrite app_assoc. Qed.

Lemma emit_pair {A} (tr t : list event) (o : outcome A) (w : W) :
  emit tr (o, w, t) = (o, w, tr ++ t).
Proof. reflexivity. Qed.

Lemma bind_ret {A B} (a : A) (k : A → M B) (w : W) : (mret a ≫= k) w = k a w.
Proof. rewrite bind_unfold. apply emit_nil. Qed.

Lemma bind_ok {A B} (m : M A) (k : A → M B) (w w1 : W) (a : A) (t1 : list event) :
  m w = (Ok a, w1, t1) → (m ≫= k) w = emit t1 (k a w1).
Proof. intros Hm. by rewrite bind_unfold, Hm. Qed.

Lemma bind_logging {B} (l : level) (msg : string) (k : unit → M B) (w : W) :
  (logging l msg ≫= k) w = emit [EvLog l msg] (k tt w).
Proof. by rewrite bind_unfold. Qed.

Lemma bind_run {B} (command : string) (k : Z → M B) (w : W) :
  (run command ≫= k) w =
  emit [EvRun command (subprocess_run command w).1]
       (k (subprocess_run command w).1 (subprocess_run command w).2).
Proof.
  rewrite bind_unfold. unfold run.
  by destruct (subprocess_run command w) as [rc w1].
Qed.

Lemma bind_path_exists {B} (p : string) (k : bool → M B) (w : W) :
  (path_exists p ≫= k) w = emit [EvPathExists p (os_path_exists p w)] (k (os_path_exists p w) w).
Proof. by rewrite bind_unfold. Qed.

Lemma unix_like_run (w : W) :
  unix_like w = (Ok (negb (Py.contains "win" (sys_platform w))), w, []).
Proof.
  unfold unix_like. rewrite bind_unfold. unfold platform, emit.
  by destruct (Py.contains "win" (sys_platform w)).
Qed.

(** Reading a key of a loaded configuration never fails. *)
Lemma item_load_config (env : gmap string string) (key : string) (default : Py.value) (w : W) :
  (key, default) ∈ key_defaults →
  item (Config.load_config env) key w = (Ok (configured env key default), w, []).
Proof.
  intros Hin. unfold item.
  pose proof (load_config_lookup env) as Hall.
  rewrite Forall_forall in Hall. specialize (Hall _ Hin). cbn [fst snd] in Hall.
  by rewrite Hall.
Qed.

Lemma bind_item {B} (env : gmap string string) (key : string) (default : Py.value)
    (k : Py.value → M B) (w : W) :
  bool_decide ((key, default) ∈ key_defaults) = true →
  (item (Config.load_config env) key ≫= k) w = k (configured env key default) w.
Proof.
  intros Hin%bool_decide_eq_true_1.
  rewrite (bind_ok _ _ _ _ _ _ (item_load_config env key default w Hin)).
  apply emit_nil.
Qed.

(** ** [upload_rclone] and [download_ilias_data] *)

Lemma upload_rclone_run (env : gmap string string) (local remote : Py.value) (w : W) :
  upload_rclone (Config.load_config env) local remote w =
  let command := upload_command
                   (configured env RCLONE_REMOTE_NAME (Py.Str "IliasDL-Cloud-Drive"))
                   local remote in
  (Ok tt, (subprocess_run command w).2,
   [EvRun command (subprocess_run command w).1; EvLog INFO "Cloud upload completed."]).
Proof.
  unfold upload_rclone.
  rewrite (bind_item env RCLONE_REMOTE_NAME (Py.Str "IliasDL-Cloud-Drive")) by reflexivity.
  cbn zeta. by rewrite bind_run.
Qed.

Lemma download_ilias_data_run (env : gmap string string) (w : W) :
  download_ilias_data (Config.load_config env) w =
  let config := Config.load_config env in
  let command := download_command_of env w in
  let rc := (subprocess_run command w).1 in
  let w1 := (subprocess_run command w).2 in
  emit [EvLog INFO "Starting ilias download..."; EvRun command rc]
    (if rc =? 0 then
       emit [EvLog INFO "Download from ilias completed. Starting upload to the cloud..."]
         (upload_rclone config (Py.Str "output")
            (configured env CLOUD_OUTPUT_PATH (Py.Str "output")) w1)
     else (Raised (Exception download_failed), w1, [])).
Proof.
  unfold download_ilias_data, download_command_of.
  rewrite bind_logging.
  rewrite (bind_ok _ _ _ _ _ _ (unix_like_run w)), emit_nil.
  rewrite (bind_item env USER_NAME Py.None_) by reflexivity.
  rewrite (bind_item env PASSWORD Py.None_) by reflexivity.
  rewrite (bind_item env JOBS (Py.Int 10)) by reflexivity.
  rewrite (bind_item env RATE (Py.Int 100)) by reflexivity.
  rewrite (bind_item env SYNC_URL Py.None_) by reflexivity.
  cbn zeta.
  assert (Hsync : ∀ w',
    ((if Py.truthy (configured env SYNC_URL Py.None_)
      then item (Config.load_config env) SYNC_URL ≫= λ url, mret (Some url)
      else mret None) : M (W:=W) (option Py.value)) w'
    = (Ok (if Py.truthy (configured env SYNC_URL Py.None_)
           then Some (configured env SYNC_URL Py.None_) else None), w', [])).
  { intros w'. destruct (Py.truthy _); [|reflexivity].
    by rewrite (bind_item env SYNC_URL Py.None_) by reflexivity. }
  rewrite (bind_ok _ _ _ _ _ _ (Hsync w)), emit_nil.
  rewrite bind_run, emit_emit. cbn [app]. f_equal.
  destruct (_ =? 0); [|reflexivity].
  rewrite bind_logging.
  by rewrite (bind_item env CLOUD_OUTPUT_PATH (Py.Str "output")) by reflexivity.
Qed.

Lemma download_command_not_upload (unix : bool) (user password jobs rate : Py.value)
    (sync : option Py.value) :
  String.prefix "rclone copy " (download_command unix user password jobs rate sync) = false.
Proof. by destruct unix, sync. Qed.

(** ** The scheduling block *)

Lemma upload_times_run (env : gmap string string) (w : W) :
  upload_times (Config.load_config env) w = (Ok (times_of env), w, []).
Proof.
  unfold upload_times, times_of.
  rewrite (bind_item env UPLOAD_TIMES (Py.Str "00:00")) by reflexivity.
  unfold configured. destruct (env !! UPLOAD_TIMES) as [v|]; [|reflexivity].
  by destruct (String.eqb v "").
Qed.

Lemma bind_add {B} (t : Task) (k : unit → M B) (w : W) :
  (add t ≫= k) w =
  match (ts_add t w).1 with
  | None => emit [EvAdd t None] (k tt (ts_add t w).2)
  | Some e => (Raised e, (ts_add t w).2, [EvAdd t (Some e)])
  end.
Proof.
  rewrite bind_unfold. unfold add.
  by destruct (ts_add t w) as [[e|] w1].
Qed.

(** The loop over the time texts either hands every task to [add], or
    stops at the first [add] that raises. *)
Lemma for_each_add (f : string → Task) (l : list string) (w : W) :
  let r := for_each l (λ t, add (f t)) w in
  (r.1.1 = Ok tt ∧ r.2 = map (λ t, EvAdd (f t) None) l)
  ∨ (∃ l1 t l2 e, l = l1 ++ t :: l2 ∧ r.1.1 = Raised e
                  ∧ r.2 = map (λ t, EvAdd (f t) None) l1 ++ [EvAdd (f t) (Some e)]).
Proof.
  revert w. induction l as [|t l IH]; intros w; cbn zeta.
  - left. by split.
  - cbn [for_each]. rewrite bind_add.
    destruct (ts_add (f t) w) as [[e|] w1]; cbn [fst snd].
    + right. by exists [], t, l, e.
    + destruct (IH w1) as [[Ho Ht]|(l1 & t' & l2 & e & -> & Ho & Ht)].
      * left. unfold emit. cbn [fst snd]. rewrite Ho, Ht. by split.
      * right. exists (t :: l1), t', l2, e. unfold emit. cbn [fst snd].
        rewrite Ho, Ht. by repeat split.
Qed.

Lemma schedule_run (env : gmap string string) (w : W) :
  schedule (Config.load_config env) w =
  let times := times_of env in
  emit [EvLog INFO ("Scheduling automatic downloads for " +:+ Py.repr_list times);
        EvTimeScheduler]
    ((for_each times (λ t, add (mkTask t CbDownloadIliasData));; start;; wait) (ts_new w)).
Proof.
  unfold schedule.
  rewrite (bind_ok _ _ _ _ _ _ (upload_times_run env w)), emit_nil.
  rewrite bind_logging. rewrite bind_unfold. unfold TimeScheduler at 1.
  by rewrite emit_emit.
Qed.

(** When no [add] raises, the block runs to the wait. *)
Lemma schedule_accepted (env : gmap string string) (w : W) :
  let times := times_of env in
  let loop := for_each times (λ t, add (mkTask t CbDownloadIliasData)) (ts_new w) in
  loop.1.1 = Ok tt →
  schedule (Config.load_config env) w =
  (Blocked, ts_start loop.1.2,
   [EvLog INFO ("Scheduling automatic downloads for " +:+ Py.repr_list times);
    EvTimeScheduler]
   ++ map (λ t, EvAdd (mkTask t CbDownloadIliasData) None) times
   ++ [EvStart; EvWait]).
Proof.
  cbn zeta. intros Hok. rewrite schedule_run. cbn zeta.
  rewrite bind_unfold.
  destruct (for_each_add (λ t, mkTask t CbDownloadIliasData) (times_of env) (ts_new w))
    as [[_ Ht]|(l1 & t & l2 & e & _ & Ho & _)]; [|congruence].
  destruct (for_each _ _ _) as [[o w1] tr]. cbn [fst snd] in *. subst o tr.
  rewrite bind_unfold. unfold start at 1, wait, emit. cbn [fst snd]. reflexivity.
Qed.

(** ** The main program *)

Lemma load_config_run (w : W) :
  Host.load_config w =
  (Ok (Config.load_config (os_environ (os_load_dotenv w))), os_load_dotenv w, [EvLoadDotenv]).
Proof. reflexivity. Qed.

(** What follows the loading of the configuration. *)
Lemma credentials_run (fuel : nat) (env : gmap string string) (w : W) :
  let config := Config.load_config env in
  (user ← item config USER_NAME;
   if negb (Py.truthy user) then
     logging ERROR "The Ilias username has not been set"
   else
     password ← item config PASSWORD;
     if negb (Py.truthy password) then
       logging ERROR "The Ilias password has not been set"
     else
       setup fuel config;; initial_run config;; schedule config) w =
  if negb (Py.truthy (configured env USER_NAME Py.None_)) then
    (Ok tt, w, [EvLog ERROR "The Ilias username has not been set"])
  else if negb (Py.truthy (configured env PASSWORD Py.None_)) then
    (Ok tt, w, [EvLog ERROR "The Ilias password has not been set"])
  else (setup fuel config;; initial_run config;; schedule config) w.
Proof.
  cbn zeta.
  rewrite (bind_item _ USER_NAME Py.None_) by reflexivity.
  destruct (negb (Py.truthy (configured _ USER_NAME _))); [reflexivity|].
  rewrite (bind_item _ PASSWORD Py.None_) by reflexivity.
  by destruct (negb (Py.truthy (configured _ PASSWORD _))).
Qed.

Lemma main_run (fuel : nat) (w : W) :
  main fuel w =
  let w1 := startup_world w in
  let env := os_environ w1 in
  let config := Config.load_config env in
  emit (startup_trace w)
    (if negb (Py.truthy (configured env USER_NAME Py.None_)) then
       (Ok tt, w1, [EvLog ERROR "The Ilias username has not been set"])
     else if negb (Py.truthy (configured env PASSWORD Py.None_)) then
       (Ok tt, w1, [EvLog ERROR "The Ilias password has not been set"])
     else (setup fuel config;; initial_run config;; schedule config) w1).
Proof.
  unfold main, startup_trace, startup_world. cbn zeta.
  rewrite bind_path_exists.
  destruct (os_path_exists "./data" w); cbn [negb].
  - rewrite bind_ret. rewrite bind_unfold. unfold basicConfig at 1.
    rewrite (bind_ok _ _ _ _ _ _ (load_config_run w)).
    rewrite credentials_run. cbn zeta. by rewrite !emit_emit.
  - rewrite bind_unfold. unfold makedirs at 1.
    rewrite bind_unfold. unfold basicConfig at 1.
    rewrite (bind_ok _ _ _ _ _ _ (load_config_run _)).
    rewrite credentials_run. cbn zeta. by rewrite !emit_emit.
Qed.

(** ** What kinds of events a part of the script can leave *)

Lemma only_bind {A B} (P : event → bool) (m : M (W:=W) A) (k : A → M (W:=W) B) :
  only P m → (∀ a, only P (k a)) → only P (m ≫= k).
Proof.
  intros Hm Hk w. rewrite bind_unfold. specialize (Hm w).
  destruct (m w) as [[[a|e| | |] w1] t1]; cbn [snd] in *; try done.
  unfold emit. cbn [snd]. rewrite forallb_app, Hm. apply Hk.
Qed.

Lemma only_ret {A} (P : event → bool) (a : A) : only P (mret a : M (W:=W) A).
Proof. by intros w. Qed.

Lemma only_raise {A} (P : event → bool) (e : exn) : only P (raise e : M (W:=W) A).
Proof. by intros w. Qed.

Lemma only_item (P : event → bool) (config : gmap string Py.value) (key : string) :
  only (W:=W) P (item config key).
Proof. intros w. unfold item. by destruct (config !! key). Qed.

Lemma only_unix_like (P : event → bool) : only (W:=W) P unix_like.
Proof. intros w. by rewrite unix_like_run. Qed.

Lemma only_home (P : event → bool) : only (W:=W) P home.
Proof. by intros w. Qed.

Lemma only_logging (P : event → bool) (l : level) (msg : string) :
  P (EvLog l msg) = true → only (W:=W) P (logging l msg).
Proof. intros HP w. cbn. by rewrite HP. Qed.

Lemma only_which (P : event → bool) (p : string) :
  (∀ b, P (EvWhich p b) = true) → only P (which p).
Proof. intros HP w. cbn. by rewrite HP. Qed.

Lemma only_run (P : event → bool) (c : string) :
  (∀ rc, P (EvRun c rc) = true) → only P (run c).
Proof.
  intros HP w. unfold run. destruct (subprocess_run c w) as [rc w1].
  cbn. by rewrite HP.
Qed.

Lemma only_check_output (P : event → bool) (c : string) :
  (∀ o, P (EvCheckOutput c o) = true) → only P (check_output c).
Proof.
  intros HP w. unfold check_output. destruct (subprocess_check_output c w) as [o w1].
  cbn. by rewrite HP.
Qed.

Lemma only_dialog (P : event → bool) (options : list string) (keys : option (list string))
    (title : string) :
  (∀ a, P (EvDialog options keys title a) = true) →
  only P (show_selection_dialog options keys title).
Proof.
  intros HP w. unfold show_selection_dialog.
  destruct (console_dialog options keys title w) as [a w1]. cbn. by rewrite HP.
Qed.

Lemma only_quit {A} (P : event → bool) : P EvQuit = true → only P (quit : M (W:=W) A).
Proof. intros HP w. cbn. by rewrite HP. Qed.

Lemma only_path_exists (P : event → bool) (p : string) :
  (∀ b, P (EvPathExists p b) = true) → only P (path_exists p).
Proof. intros HP w. cbn. by rewrite HP. Qed.

Lemma only_add (P : event → bool) (t : Task) :
  (∀ r, P (EvAdd t r) = true) → only P (add t).
Proof.
  intros HP w. unfold add. destruct (ts_add t w) as [r w1]. cbn. by rewrite HP.
Qed.

Lemma only_for_each {A} (P : event → bool) (l : list A) (body : A → M (W:=W) unit) :
  (∀ x, only P (body x)) → only P (for_each l body).
Proof.
  intros Hbody. induction l as [|x l IH]; [apply only_ret|].
  cbn [for_each]. apply only_bind; [apply Hbody | intros _; apply IH].
Qed.

(** Splits a computation along its binds and branches down to the calls. *)
Ltac only_split :=
  repeat first
    [ apply only_bind; [|intros ?]
    | apply only_ret | apply only_raise | apply only_item
    | apply only_unix_like | apply only_home
    | apply only_logging; reflexivity
    | apply only_which; reflexivity
    | apply only_run; reflexivity
    | apply only_check_output; reflexivity
    | apply only_dialog; reflexivity
    | apply only_path_exists; reflexivity
    | apply only_quit; reflexivity
    | case_match ].

Lemma setup_ilias_downloader_prepares : only (W:=W) is_preparation setup_ilias_downloader.
Proof. unfold setup_ilias_downloader. only_split. Qed.

Lemma setup_rclone_prepares (config : gmap string Py.value) :
  only (W:=W) is_preparation (setup_rclone config).
Proof. unfold setup_rclone. only_split. Qed.

Lemma setup_prepares (fuel : nat) (config : gmap string Py.value) :
  only (W:=W) is_preparation (setup fuel config).
Proof.
  unfold setup. apply only_bind; [apply setup_ilias_downloader_prepares|intros _].
  induction fuel as [|fuel IH]; [by intros w|].
  cbn [setup_loop]. apply only_bind; [apply setup_rclone_prepares|].
  intros []; [apply only_ret|apply IH].
Qed.

Lemma schedule_no_download (config : gmap string Py.value) :
  only (W:=W) (λ e, negb (is_download_start e)) (schedule config).
Proof.
  unfold schedule, upload_times. only_split.
  - by intros w.
  - apply only_for_each. intros t. by apply only_add.
  - by intros w.
  - by intros w.
Qed.

Lemma download_ilias_data_no_scheduler (config : gmap string Py.value) :
  only (W:=W) (λ e, negb (is_scheduler_call e)) (download_ilias_data config).
Proof. unfold download_ilias_data, upload_rclone. only_split. Qed.

Lemma initial_run_no_scheduler (config : gmap string Py.value) :
  only (W:=W) (λ e, negb (is_scheduler_call e)) (initial_run config).
Proof.
  unfold initial_run. only_split.
Qed.

Lemma filter_none {A} (P : A → bool) (l : list A) :
  forallb (λ x, negb (P x)) l = true → List.filter P l = [].
Proof.
  induction l as [|x l IH]; [done|]. cbn. intros [Hx Hl]%andb_true_iff.
  destruct (P x); [done|]. by apply IH.
Qed.

Lemma forallb_weaken {A} (P Q : A → bool) (l : list A) :
  (∀ x, P x = true → Q x = true) → forallb P l = true → forallb Q l = true.
Proof. rewrite !forallb_forall. auto. Qed.

Lemma downloads_app (t1 t2 : list event) :
  downloads (t1 ++ t2) = (downloads t1 + downloads t2)%nat.
Proof. unfold downloads. by rewrite List.filter_app, length_app. Qed.

Lemma downloads_none (tr : list event) :
  forallb (λ e, negb (is_download_start e)) tr = true → downloads tr = 0%nat.
Proof. intros Hno. unfold downloads. by rewrite filter_none. Qed.

Lemma preparation_no_download (tr : list event) :
  forallb is_preparation tr = true → downloads tr = 0%nat.
Proof.
  intros Hp. apply downloads_none. revert Hp. apply forallb_weaken.
  unfold is_preparation. intros e. by destruct (is_download_start e), (is_scheduler_call e).
Qed.

Lemma preparation_no_scheduler (tr : list event) :
  forallb is_preparation tr = true → List.filter is_scheduler_call tr = [].
Proof.
  intros Hp. apply filter_none. revert Hp. apply forallb_weaken.
  unfold is_preparation. intros e. by destruct (is_scheduler_call e).
Qed.

Lemma startup_prepares (w : W) : forallb is_preparation (startup_trace w) = true.
Proof. unfold startup_trace. by destruct (os_path_exists "./data" w). Qed.

Lemma download_ilias_data_once (env : gmap string string) (w : W) :
  downloads (download_ilias_data (Config.load_config env) w).2 = 1%nat.
Proof.
  rewrite download_ilias_data_run. cbn zeta.
  destruct (_ =? 0); [|reflexivity]. by rewrite upload_rclone_run.
Qed.

(** A variable counts as set exactly when its configured value is truthy. *)
Lemma truthy_configured (env : gmap string string) (key : string) :
  Py.truthy (configured env key Py.None_) = negb (unset_or_empty env key).
Proof.
  unfold configured, unset_or_empty. destruct (env !! key) as [v|]; [|done].
  by destruct (String.eqb v "") eqn:Hv; cbn; rewrite ?Hv.
Qed.

(** The main program once the credentials are there and the set-up has
    returned: the first run, then the scheduling block. *)
Lemma main_after_setup (fuel : nat) (w w2 : W) (tr_setup : list event) :
  let w1 := startup_world w in
  let env := os_environ w1 in
  let config := Config.load_config env in
  unset_or_empty env USER_NAME = false →
  unset_or_empty env PASSWORD = false →
  setup fuel config w1 = (Ok tt, w2, tr_setup) →
  main fuel w =
  emit (startup_trace w ++ tr_setup) ((initial_run config;; schedule config) w2).
Proof.
  cbn zeta. intros Huser Hpass Hsetup.
  rewrite main_run. cbn zeta.
  rewrite !truthy_configured, Huser, Hpass. cbn [negb].
  by rewrite (bind_ok _ _ _ _ _ _ Hsetup), emit_emit.
Qed.

Lemma initial_run_run (config : gmap string Py.value) (w : W) :
  initial_run config w =
  emit [EvPathExists "output" (os_path_exists "output" w)]
    (if os_path_exists "output" w then (Ok tt, w, [])
     else download_ilias_data config w).
Proof.
  unfold initial_run. rewrite bind_path_exists.
  by destruct (os_path_exists "output" w).
Qed.

Lemma filter_added (l : list string) :
  List.filter is_scheduler_call (map (λ t, EvAdd (mkTask t CbDownloadIliasData) None) l)
  = map (λ t, EvAdd (mkTask t CbDownloadIliasData) None) l.
Proof. induction l as [|t l IH]; [done|]. cbn. by rewrite IH. Qed.

Lemma added_app (t1 t2 : list event) : added (t1 ++ t2) = added t1 ++ added t2.
Proof. unfold added. apply omap_app. Qed.

Lemma added_map (l : list string) :
  added (map (λ t, EvAdd (mkTask t CbDownloadIliasData) None) l)
  = map (λ t, mkTask t CbDownloadIliasData) l.
Proof. unfold added. induction l as [|t l IH]; [done|]. cbn. by f_equal. Qed.

Lemma added_none (tr : list event) :
  List.filter is_scheduler_call tr = [] → added tr = [].
Proof.
  unfold added. induction tr as [|e tr IH]; [done|]. cbn.
  destruct e; cbn; try done; auto.
Qed.

(** The whole run when the first run returns and no [add] raises. *)
Lemma main_scheduled (fuel : nat) (w w2 w3 : W) (tr_setup tr_first : list event) :
  let w1 := startup_world w in
  let env := os_environ w1 in
  let config := Config.load_config env in
  let times := times_of env in
  let loop := for_each times (λ t, add (mkTask t CbDownloadIliasData)) (ts_new w3) in
  unset_or_empty env USER_NAME = false →
  unset_or_empty env PASSWORD = false →
  setup fuel config w1 = (Ok tt, w2, tr_setup) →
  initial_run config w2 = (Ok tt, w3, tr_first) →
  loop.1.1 = Ok tt →
  main fuel w =
  (Blocked, ts_start loop.1.2,
   (startup_trace w ++ tr_setup ++ tr_first)
   ++ [EvLog INFO ("Scheduling automatic downloads for " +:+ Py.repr_list times);
       EvTimeScheduler]
   ++ map (λ t, EvAdd (mkTask t CbDownloadIliasData) None) times
   ++ [EvStart; EvWait]).
Proof.
  cbn zeta. intros Huser Hpass Hsetup Hfirst Hloop.
  rewrite (main_after_setup fuel w w2 tr_setup Huser Hpass Hsetup).
  rewrite (bind_ok _ _ _ _ _ _ Hfirst), emit_emit.
  rewrite (schedule_accepted _ w3 Hloop). unfold emit. cbn [fst snd].
  by rewrite <- !app_assoc.
Qed.

Lemma schedule_default_time (env : gmap string string) (w : W) :
  unset_or_empty env UPLOAD_TIMES = true →
  added (schedule (Config.load_config env) w).2 = [mkTask "00:00" CbDownloadIliasData].
Proof.
  intros Hunset. rewrite schedule_run. cbn zeta.
  assert (times_of env = ["00:00"]) as ->.
  { unfold times_of, configured. unfold unset_or_empty in Hunset.
    destruct (env !! UPLOAD_TIMES) as [v|]; [|reflexivity]. by rewrite Hunset. }
  rewrite bind_unfold.
  destruct (for_each_add (λ t, mkTask t CbDownloadIliasData) ["00:00"] (ts_new w))
    as [[Ho Ht]|(l1 & t & l2 & e & Hl & Ho & Ht)];
    destruct (for_each _ _ _) as [[o w1] tr]; cbn [fst snd] in *; subst o tr.
  - rewrite bind_unfold. unfold start at 1, wait. reflexivity.
  - destruct l1 as [|t1 l1]; [|by destruct l1].
    by injection Hl as <- <-.
Qed.

Lemma preparation_not_scheduler (tr : list event) :
  forallb is_preparation tr = true →
  forallb (λ e, negb (is_scheduler_call e)) tr = true.
Proof.
  apply forallb_weaken. unfold is_preparation. intros e.
  by destruct (is_scheduler_call e).
Qed.

(** Up to the end of the first run nothing is asked of the scheduler. *)
Lemma before_schedule_no_scheduler (fuel : nat) (config : gmap string Py.value)
    (w1 w2 w3 : W) (o : outcome unit) (tr_setup tr_first : list event) (w : W) :
  setup fuel config w1 = (Ok tt, w2, tr_setup) →
  initial_run config w2 = (o, w3, tr_first) →
  forallb (λ e, negb (is_scheduler_call e)) (startup_trace w ++ tr_setup ++ tr_first) = true.
Proof.
  intros Hsetup Hfirst.
  pose proof (setup_prepares fuel config w1) as Hs. rewrite Hsetup in Hs.
  pose proof (initial_run_no_scheduler config w2) as Hf. rewrite Hfirst in Hf.
  cbn [snd] in Hs, Hf.
  rewrite !forallb_app, Hf.
  rewrite (preparation_not_scheduler _ (startup_prepares w)).
  by rewrite (preparation_not_scheduler _ Hs).
Qed.



Lemma added_no_rejection (l : list string) :
  existsb is_rejection (map (λ t, EvAdd (mkTask t CbDownloadIliasData) None) l) = false.
Proof. induction l as [|t l IH]; [done|]. by cbn. Qed.


(** With the upload times unset or empty, a run that reaches the
    scheduling block hands one task to [add]: the one of "00:00". *)
Lemma main_default_time (fuel : nat) (w w2 w3 : W) (tr_setup tr_first : list event) :
  let w1 := startup_world w in
  let env := os_environ w1 in
  let config := Config.load_config env in
  unset_or_empty env USER_NAME = false →
  unset_or_empty env PASSWORD = false →
  unset_or_empty env UPLOAD_TIMES = true →
  setup fuel config w1 = (Ok tt, w2, tr_setup) →
  initial_run config w2 = (Ok tt, w3, tr_first) →
  added (main fuel w).2 = [mkTask "00:00" CbDownloadIliasData].
Proof.
  cbn zeta. intros Huser Hpass Htimes Hsetup Hfirst.
  rewrite (main_after_setup fuel w w2 tr_setup Huser Hpass Hsetup).
  rewrite (bind_ok _ _ _ _ _ _ Hfirst), emit_emit.
  pose proof (before_schedule_no_scheduler fuel _ _ _ _ _ _ _ w Hsetup Hfirst) as Hpre.
  unfold emit. cbn [snd]. rewrite added_app, <- app_assoc.
  rewrite (added_none _ (filter_none _ _ Hpre)).
  by apply schedule_default_time.
Qed.

(** ** The claims about the host program *)

(** C8, amended: for every configuration key, [load_config] returns the
    value of the environment variable when it is set to a non-empty string
    and the listed default otherwise, so that a variable set to the empty
    string yields the default: [None] for the user name, the password, the
    sync URL, the client id and the client secret, ['output'] for the cloud
    output path and ['00:00'] for the upload times; with the upload times
    unset or empty, the scheduling block, whenever it runs, hands exactly
    one task, at "00:00", to the scheduler, and so does every run of the
    main program that reaches it (credentials set, set-up and first run
    returned). *)
Theorem load_config_env_or_default (env : gmap string string) (key : string)
    (default : Py.value) :
  (key, default) ∈ key_defaults →
  (∀ v, env !! key = Some v → v ≠ "" → Config.load_config env !! key = Some (Py.Str v))
  ∧ (unset_or_empty env key = true → Config.load_config env !! key = Some default)
  ∧ Forall (λ k, unset_or_empty env k = true → Config.load_config env !! k = Some Py.None_)
           [USER_NAME; PASSWORD; SYNC_URL; CLIENT_ID; CLIENT_SECRET]
  ∧ (unset_or_empty env CLOUD_OUTPUT_PATH = true →
     Config.load_config env !! CLOUD_OUTPUT_PATH = Some (Py.Str "output"))
  ∧ (unset_or_empty env UPLOAD_TIMES = true →
     Config.load_config env !! UPLOAD_TIMES = Some (Py.Str "00:00")
     ∧ (∀ w : W, added (schedule (Config.load_config env) w).2
                 = [mkTask "00:00" CbDownloadIliasData])
     ∧ (∀ (fuel : nat) (w w2 w3 : W) (tr_setup tr_first : list event),
          os_environ (startup_world w) = env →
          unset_or_empty env USER_NAME = false →
          unset_or_empty env PASSWORD = false →
          setup fuel (Config.load_config env) (startup_world w) = (Ok tt, w2, tr_setup) →
          initial_run (Config.load_config env) w2 = (Ok tt, w3, tr_first) →
          added (main fuel w).2 = [mkTask "00:00" CbDownloadIliasData])).
Proof.
  intros Hin.
  pose proof (load_config_lookup env) as Hall.
  rewrite Forall_forall in Hall. pose proof (Hall _ Hin) as Hkey. cbn [fst snd] in Hkey.
  assert (Hdefault : ∀ k d, bool_decide ((k, d) ∈ key_defaults) = true →
            unset_or_empty env k = true → Config.load_config env !! k = Some d).
  { intros k d Hk%bool_decide_eq_true_1 Hunset.
    pose proof (Hall _ Hk) as Hd. cbn [fst snd] in Hd. rewrite Hd. unfold configured.
    unfold unset_or_empty in Hunset.
    destruct (env !! k) as [v|]; [|reflexivity]. by rewrite Hunset. }
  split; [|split; [|split; [|split]]].
  - intros v Hv Hne. rewrite Hkey. unfold configured. rewrite Hv.
    destruct (String.eqb_spec v ""); [contradiction|reflexivity].
  - intros Hunset. rewrite Hkey. unfold configured.
    unfold unset_or_empty in Hunset.
    destruct (env !! key) as [v|]; [|reflexivity]. by rewrite Hunset.
  - repeat constructor; by apply Hdefault.
  - by apply Hdefault.
  - intros Hunset. split; [by apply Hdefault|]. split.
    + intros w. by apply schedule_default_time.
    + intros fuel w w2 w3 tr_setup tr_first <- Huser Hpass Hsetup Hfirst.
      by apply (main_default_time fuel w w2 w3 tr_setup tr_first).
Qed.

(** C10: [upload_rclone] runs the [rclone copy] command, then logs
    'Cloud upload completed.' and returns normally, whatever the return
    code [rc] of the sub-process is: nothing is raised and nothing is
    reported as an error. *)
Theorem upload_rclone_ignores_returncode (env : gmap string string)
    (output_path_local output_path_remote : Py.value) (w w' : W) (rc : Z) :
  let command := upload_command
                   (configured env RCLONE_REMOTE_NAME (Py.Str "IliasDL-Cloud-Drive"))
                   output_path_local output_path_remote in
  subprocess_run command w = (rc, w') →
  upload_rclone (Config.load_config env) output_path_local output_path_remote w
  = (Ok tt, w', [EvRun command rc; EvLog INFO "Cloud upload completed."]).
Proof.
  cbn zeta. intros Hrun. rewrite upload_rclone_run. cbn zeta. by rewrite Hrun.
Qed.

(** C5: [download_ilias_data] calls [upload_rclone], with the local path
    'output' and the configured cloud output path, exactly when the
    downloader's sub-process returns code 0; for every other return code
    it raises an [Exception] and no upload is attempted. *)
Theorem download_uploads_iff_returncode_zero (env : gmap string string)
    (w w1 : W) (rc : Z) :
  let config := Config.load_config env in
  let command := download_command_of env w in
  let upload := upload_rclone config (Py.Str "output")
                  (configured env CLOUD_OUTPUT_PATH (Py.Str "output")) w1 in
  let r := download_ilias_data config w in
  subprocess_run command w = (rc, w1) →
  (rc = 0 →
     r = emit [EvLog INFO "Starting ilias download..."; EvRun command 0;
               EvLog INFO "Download from ilias completed. Starting upload to the cloud..."]
           upload)
  ∧ (rc ≠ 0 →
     r = (Raised (Exception download_failed), w1,
          [EvLog INFO "Starting ilias download..."; EvRun command rc]))
  ∧ (existsb is_upload r.2 = true ↔ rc = 0).
Proof.
  cbn zeta. intros Hrun. rewrite download_ilias_data_run. cbn zeta.
  rewrite Hrun. cbn [fst snd].
  assert (Hcmd : String.prefix "rclone copy " (download_command_of env w) = false)
    by apply download_command_not_upload.
  destruct (Z.eqb_spec rc 0) as [->|Hne].
  - split; [|split]; [by rewrite emit_emit|done|].
    split; [done|intros _].
    rewrite upload_rclone_run. cbn [emit fst snd app existsb is_upload].
    rewrite Hcmd. reflexivity.
  - split; [|split]; [done|done|].
    cbn [emit fst snd app existsb is_upload]. rewrite Hcmd. by split.
Qed.

(** C9: when the user name or the password is unset or empty, the main
    program only logs an error and is done: after the first lines (data
    folder, logger, configuration) the one event is the error message; no
    set-up runs, nothing is downloaded, no [TimeScheduler] is constructed
    and [start()] is never called. *)
Theorem missing_credentials_only_log (fuel : nat) (w : W) :
  let w1 := startup_world w in
  let env := os_environ w1 in
  let r := main fuel w in
  unset_or_empty env USER_NAME = true ∨ unset_or_empty env PASSWORD = true →
  r = (Ok tt, w1,
       startup_trace w
       ++ [EvLog ERROR (if unset_or_empty env USER_NAME
                        then "The Ilias username has not been set"
                        else "The Ilias password has not been set")])
  ∧ existsb is_tool_call r.2 = false
  ∧ downloads r.2 = 0%nat
  ∧ existsb is_scheduler_call r.2 = false.
Proof.
  cbn zeta. intros Hmissing.
  assert (Hrun : main fuel w =
    (Ok tt, startup_world w,
     startup_trace w
     ++ [EvLog ERROR (if unset_or_empty (os_environ (startup_world w)) USER_NAME
                      then "The Ilias username has not been set"
                      else "The Ilias password has not been set")])).
  { rewrite main_run. cbn zeta. rewrite !truthy_configured, !negb_involutive.
    destruct (unset_or_empty _ USER_NAME); [reflexivity|].
    destruct Hmissing as [|Hpass]; [done|]. by rewrite Hpass. }
  rewrite Hrun. split; [reflexivity|]. cbn [snd].
  unfold startup_trace.
  by destruct (os_path_exists "./data" w), (unset_or_empty _ USER_NAME).
Qed.

(** C4 (with the user name and the password set and the set-up
    returned): the main program enters [download_ilias_data] once, right
    after the test of the path 'output' and before anything is asked of
    the scheduler, if and only if that path does not exist; when it
    exists, [download_ilias_data] is not entered at all by the main
    program. *)
Theorem first_run_iff_no_output (fuel : nat) (w w2 : W) (tr_setup : list event) :
  let w1 := startup_world w in
  let env := os_environ w1 in
  let config := Config.load_config env in
  let present := os_path_exists "output" w2 in
  let first := if present then [] else (download_ilias_data config w2).2 in
  let r := main fuel w in
  unset_or_empty env USER_NAME = false →
  unset_or_empty env PASSWORD = false →
  setup fuel config w1 = (Ok tt, w2, tr_setup) →
  (downloads r.2 = 1%nat ↔ present = false)
  ∧ downloads r.2 = (if present then 0 else 1)%nat
  ∧ ∃ rest,
      r.2 = (startup_trace w ++ tr_setup ++ [EvPathExists "output" present]) ++ first ++ rest
      ∧ downloads first = downloads r.2
      ∧ List.filter is_scheduler_call r.2 = List.filter is_scheduler_call rest.
Proof.
  cbn zeta. intros Huser Hpass Hsetup.
  set (config := Config.load_config (os_environ (startup_world w))) in *.
  pose proof (setup_prepares fuel config (startup_world w)) as Hs.
  rewrite Hsetup in Hs. cbn [snd] in Hs.
  pose proof (startup_prepares w) as H0.
  assert (Hmain : ∃ rest,
    (main fuel w).2 =
      (startup_trace w ++ tr_setup ++ [EvPathExists "output" (os_path_exists "output" w2)])
      ++ (if os_path_exists "output" w2 then [] else (download_ilias_data config w2).2)
      ++ rest
    ∧ downloads rest = 0%nat).
  { rewrite (main_after_setup fuel w w2 tr_setup Huser Hpass Hsetup).
    fold config. rewrite bind_unfold, initial_run_run.
    destruct (os_path_exists "output" w2).
    - rewrite emit_pair. exists (schedule config w2).2. split.
      + unfold emit. cbn [fst snd app]. by rewrite <- !app_assoc.
      + apply downloads_none, schedule_no_download.
    - destruct (download_ilias_data config w2) as [[[[]|e| | |] w3] trd];
        rewrite emit_pair; cbn [app snd].
      + exists (schedule config w3).2. split.
        * unfold emit. cbn [fst snd]. by rewrite <- !app_assoc.
        * apply downloads_none, schedule_no_download.
      + exists []. split; [|done]. unfold emit. cbn [snd].
        by rewrite app_nil_r, <- !app_assoc.
      + exists []. split; [|done]. unfold emit. cbn [snd].
        by rewrite app_nil_r, <- !app_assoc.
      + exists []. split; [|done]. unfold emit. cbn [snd].
        by rewrite app_nil_r, <- !app_assoc.
      + exists []. split; [|done]. unfold emit. cbn [snd].
        by rewrite app_nil_r, <- !app_assoc. }
  destruct Hmain as (rest & Hmain & Hrest).
  assert (Hfirst_d : downloads (if os_path_exists "output" w2 then []
                                else (download_ilias_data config w2).2)
                     = (if os_path_exists "output" w2 then 0 else 1)%nat).
  { destruct (os_path_exists "output" w2); [done|]. apply download_ilias_data_once. }
  assert (Hfirst_s : List.filter is_scheduler_call
                       (if os_path_exists "output" w2 then []
                        else (download_ilias_data config w2).2) = []).
  { destruct (os_path_exists "output" w2); [done|].
    apply filter_none, download_ilias_data_no_scheduler. }
  assert (Hcount : downloads (main fuel w).2
                   = (if os_path_exists "output" w2 then 0 else 1)%nat).
  { rewrite Hmain, !downloads_app, Hfirst_d, Hrest.
    rewrite (preparation_no_download _ H0), (preparation_no_download _ Hs).
    cbn. lia. }
  split; [|split; [done|]].
  - rewrite Hcount. by destruct (os_path_exists "output" w2).
  - exists rest. split; [done|]. split; [by rewrite Hfirst_d, Hcount|].
    rewrite Hmain, !List.filter_app, Hfirst_s.
    rewrite (preparation_no_scheduler _ H0), (preparation_no_scheduler _ Hs).
    reflexivity.
Qed.

(** C2, amended: once the configuration is loaded with a user name and a
    password, the set-up has returned, the first run (made when 'output'
    is missing) has returned without raising and no [add] raises, the
    main program constructs exactly one [TimeScheduler], hands one task
    per configured time text to [add], in order, calls [start()] exactly
    once and then blocks in the wait: the wait is its last event and
    nothing is asked of the scheduler after [start()]. *)
Theorem host_schedules_then_blocks (fuel : nat) (w w2 w3 : W)
    (tr_setup tr_first : list event) :
  let w1 := startup_world w in
  let env := os_environ w1 in
  let config := Config.load_config env in
  let times := times_of env in
  let loop := for_each times (λ t, add (mkTask t CbDownloadIliasData)) (ts_new w3) in
  let r := main fuel w in
  unset_or_empty env USER_NAME = false →
  unset_or_empty env PASSWORD = false →
  setup fuel config w1 = (Ok tt, w2, tr_setup) →
  initial_run config w2 = (Ok tt, w3, tr_first) →
  loop.1.1 = Ok tt →
  r.1.1 = Blocked
  ∧ List.filter is_scheduler_call r.2
    = EvTimeScheduler :: map (λ t, EvAdd (mkTask t CbDownloadIliasData) None) times
      ++ [EvStart]
  ∧ ∃ pre, r.2 = pre ++ [EvStart; EvWait].
Proof.
  cbn zeta. intros Huser Hpass Hsetup Hfirst Hloop.
  rewrite (main_scheduled fuel w w2 w3 tr_setup tr_first Huser Hpass Hsetup Hfirst Hloop).
  cbn [fst snd].
  pose proof (before_schedule_no_scheduler fuel _ _ _ _ _ _ _ w Hsetup Hfirst) as Hpre.
  split; [reflexivity|split].
  - rewrite List.filter_app, (filter_none _ _ Hpre). cbn [app List.filter is_scheduler_call].
    by rewrite List.filter_app, filter_added.
  - eexists. rewrite !app_assoc. reflexivity.
Qed.


End HostFacts.

(** * The host program on the scripted world *)

Section HostExamples.
Import Config Host Scripted.

Lemma load_config_env_or_default_witness :
  (UPLOAD_TIMES, Py.Str "00:00") ∈ key_defaults
  ∧ Config.load_config ∅ !! UPLOAD_TIMES = Some (Py.Str "00:00")
  ∧ added (schedule (Config.load_config ∅) w_output_exists).2
    = [mkTask "00:00" CbDownloadIliasData].
Proof.
  assert (Hin : (UPLOAD_TIMES, Py.Str "00:00") ∈ key_defaults)
    by (apply (bool_decide_eq_true_1 _); reflexivity).
  split; [exact Hin|].
  destruct (load_config_env_or_default (W:=world) ∅ UPLOAD_TIMES (Py.Str "00:00") Hin)
    as (_ & _ & _ & _ & Htimes).
  destruct (Htimes eq_refl) as (Hdefault & Hone & _).
  split; [exact Hdefault|apply Hone].
Defined.

(** C8 as stated fails in its last clause: with no environment set at all
    the user name is missing, the main program stops at the error message
    and hands no task to the scheduler. *)
Lemma load_config_env_or_default_counterexample :
  os_environ (startup_world w_no_credentials) = ∅
  ∧ Config.load_config ∅ !! UPLOAD_TIMES = Some (Py.Str "00:00")
  ∧ (main 1 w_no_credentials).1.1 = Ok tt
  ∧ added (main 1 w_no_credentials).2 = []
  ∧ existsb is_scheduler_call (main 1 w_no_credentials).2 = false.
Proof. vm_compute. repeat split. Qed.

Lemma upload_rclone_ignores_returncode_witness :
  subprocess_run
    (upload_command (configured ∅ RCLONE_REMOTE_NAME (Py.Str "IliasDL-Cloud-Drive"))
       (Py.Str "output") (Py.Str "output"))
    w_download_fails
  = (1, set_returncodes [] w_download_fails)
  ∧ upload_rclone (Config.load_config ∅) (Py.Str "output") (Py.Str "output") w_download_fails
    = (Ok tt, set_returncodes [] w_download_fails,
       [EvRun (upload_command (configured ∅ RCLONE_REMOTE_NAME (Py.Str "IliasDL-Cloud-Drive"))
                 (Py.Str "output") (Py.Str "output")) 1;
        EvLog INFO "Cloud upload completed."]).
Proof.
  split; [reflexivity|].
  exact (upload_rclone_ignores_returncode (W:=world) ∅ (Py.Str "output") (Py.Str "output")
           w_download_fails (set_returncodes [] w_download_fails) 1 eq_refl).
Defined.

Lemma download_uploads_iff_returncode_zero_witness :
  subprocess_run (download_command_of (list_to_map credentials) w_download_fails)
    w_download_fails
  = (1, set_returncodes [] w_download_fails)
  ∧ download_ilias_data (Config.load_config (list_to_map credentials)) w_download_fails
    = (Raised (Exception download_failed), set_returncodes [] w_download_fails,
       [EvLog INFO "Starting ilias download...";
        EvRun (download_command_of (list_to_map credentials) w_download_fails) 1]).
Proof.
  split; [reflexivity|].
  refine (proj1 (proj2 (download_uploads_iff_returncode_zero (W:=world)
            (list_to_map credentials) w_download_fails
            (set_returncodes [] w_download_fails) 1 eq_refl)) _).
  discriminate.
Defined.

Lemma missing_credentials_only_log_witness :
  (unset_or_empty (os_environ (startup_world w_no_credentials)) USER_NAME = true
   ∨ unset_or_empty (os_environ (startup_world w_no_credentials)) PASSWORD = true)
  ∧ main 0 w_no_credentials
    = (Ok tt, startup_world w_no_credentials,
       [EvPathExists "./data" false; EvMakedirs "./data"; EvBasicConfig; EvLoadDotenv;
        EvLog ERROR "The Ilias username has not been set"]).
Proof.
  split; [left; reflexivity|].
  exact (proj1 (missing_credentials_only_log (W:=world) 0 w_no_credentials
                  (or_introl eq_refl))).
Defined.

Lemma first_run_iff_no_output_witness :
  unset_or_empty (os_environ (startup_world w_first_run)) USER_NAME = false
  ∧ unset_or_empty (os_environ (startup_world w_first_run)) PASSWORD = false
  ∧ (setup 1 (Config.load_config (os_environ (startup_world w_first_run)))
       (startup_world w_first_run)).1.1 = Ok tt
  ∧ os_path_exists "output"
      (setup 1 (Config.load_config (os_environ (startup_world w_first_run)))
         (startup_world w_first_run)).1.2 = false
  ∧ downloads (main 1 w_first_run).2 = 1%nat.
Proof.
  split; [reflexivity|]. split; [reflexivity|]. split; [reflexivity|].
  split; [reflexivity|].
  refine (proj2 (proj1 (first_run_iff_no_output (W:=world) 1 w_first_run
    (setup 1 (Config.load_config (os_environ (startup_world w_first_run)))
       (startup_world w_first_run)).1.2
    (setup 1 (Config.load_config (os_environ (startup_world w_first_run)))
       (startup_world w_first_run)).2
    eq_refl eq_refl _)) _).
  - vm_compute. reflexivity.
  - reflexivity.
Defined.

Lemma host_schedules_then_blocks_witness :
  unset_or_empty (os_environ (startup_world w_output_exists)) USER_NAME = false
  ∧ unset_or_empty (os_environ (startup_world w_output_exists)) PASSWORD = false
  ∧ (main 1 w_output_exists).1.1 = Blocked
  ∧ List.filter is_scheduler_call (main 1 w_output_exists).2
    = [EvTimeScheduler; EvAdd (mkTask "00:00" CbDownloadIliasData) None; EvStart].
Proof.
  split; [reflexivity|]. split; [reflexivity|].
  pose proof (host_schedules_then_blocks (W:=world) 1 w_output_exists
    (setup 1 (Config.load_config (os_environ (startup_world w_output_exists)))
       (startup_world w_output_exists)).1.2
    (initial_run (Config.load_config (os_environ (startup_world w_output_exists)))
       (setup 1 (Config.load_config (os_environ (startup_world w_output_exists)))
          (startup_world w_output_exists)).1.2).1.2
    (setup 1 (Config.load_config (os_environ (startup_world w_output_exists)))
       (startup_world w_output_exists)).2
    (initial_run (Config.load_config (os_environ (startup_world w_output_exists)))
       (setup 1 (Config.load_config (os_environ (startup_world w_output_exists)))
          (startup_world w_output_exists)).1.2).2
    eq_refl eq_refl) as Hthm.
  cbn zeta in Hthm.
  destruct Hthm as (Hblocked & Hcalls & _).
  - vm_compute. reflexivity.
  - vm_compute. reflexivity.
  - vm_compute. reflexivity.
  - split; [exact Hblocked|]. rewrite Hcalls. reflexivity.
Defined.

(** C2 as stated fails on a first run whose download fails: the
    configuration is loaded with both credentials and the set-up returns,
    yet the main program ends with the exception of
    [download_ilias_data]; it constructs no [TimeScheduler], never calls
    [start()] and does not reach the wait. *)
Lemma host_schedules_then_blocks_counterexample :
  unset_or_empty (os_environ (startup_world w_download_fails)) USER_NAME = false
  ∧ unset_or_empty (os_environ (startup_world w_download_fails)) PASSWORD = false
  ∧ (setup 1 (Config.load_config (os_environ (startup_world w_download_fails)))
       (startup_world w_download_fails)).1.1 = Ok tt
  ∧ (main 1 w_download_fails).1.1 = Raised (Exception download_failed)
  ∧ existsb is_scheduler_call (main 1 w_download_fails).2 = false
  ∧ last (main 1 w_download_fails).2 ≠ Some EvWait.
Proof. vm_compute. repeat split; discriminate. Qed.


(** On the scheduler of the specification, time texts that are all valid
    are all accepted: the loop of the scheduling block returns. *)
Lemma scripted_accepts_valid_times (times : list string) (w : world)
    (ts : Scheduler.TimeScheduler callback) :
  w_scheduler w = Some ts →
  forallb Scheduler.valid_time times = true →
  (for_each times (λ t, add (mkTask t CbDownloadIliasData)) w).1.1 = Ok tt.
Proof.
  revert w ts. induction times as [|t times IH]; intros w ts Hts Hvalid; [done|].
  cbn [forallb] in Hvalid. apply andb_true_iff in Hvalid as [Ht Hvalid].
  cbn [for_each]. rewrite bind_add.
  destruct (add_valid_time t CbDownloadIliasData ts Ht) as (tod & _ & _ & Hadd).
  assert (Hstep : ts_add (mkTask t CbDownloadIliasData) w
            = (None, set_scheduler
                       (Some (Scheduler.mkScheduler
                                (Scheduler.tasks ts ++ [Scheduler.mkTask tod CbDownloadIliasData])
                                (Scheduler.running ts) (Scheduler.entries ts))) w)).
  { cbn. unfold scripted_add. rewrite Hts. cbn [timeOfDay action]. by rewrite Hadd. }
  rewrite Hstep. cbn [fst snd]. unfold emit. cbn [fst snd].
  eapply IH; [|done]. reflexivity.
Qed.

End HostExamples.

(** * The scheduler on examples *)

Section SchedulerExamples.
Import Scheduler.

Lemma add_rejects_invalid_time_witness :
  valid_time "25:61" = false
  ∧ add "25:61" tt nightly = (Some (ConfigurationError "25:61"), nightly).
Proof.
  assert (Hinvalid : valid_time "25:61" = false) by (vm_compute; reflexivity).
  split; [exact Hinvalid|].
  exact (proj1 (add_rejects_invalid_time "25:61" tt nightly Hinvalid)).
Defined.


(** C1 as stated fails where the overlap policy applies.  The scheduler
    is started at 23:59:00 with one task at 00:00 and checks the clock
    every minute for twenty-five hours; the action fired at the first
    midnight never returns.  The second midnight comes while the scheduler
    is running, and the task is not fired for it: the occurrence is
    skipped. *)
(** The scenario of section 8 of the specification: tasks at 00:00 and
    12:30, the clock starting at 23:58:00.  Two minutes later only the task
    of 00:00 is fired; twelve hours and thirty-two minutes after that only
    the task of 12:30. *)
Example scenario_two_tasks :
  drive [Tick (clock 24 0 0); Done 0 Returned; Tick (clock 36 32 0)]
    (start (clock 23 58 0) twice_a_day)
  = (mkScheduler (tasks twice_a_day) true
       [mkEntry (mkTask (mkTime 0 0) tt) (clock 48 0 0) false;
        mkEntry (mkTask (mkTime 12 30) tt) (clock 60 30 0) true],
     [Invoke 0 (clock 24 0 0) (clock 24 0 0); Invoke 1 (clock 36 30 0) (clock 36 32 0)]).
Proof. vm_compute. reflexivity. Qed.


(** The action fired at midnight raises; the scheduler, after quiet checks,
    fires the task again at the next midnight. *)
Lemma failure_is_contained_witness :
  running (start 86340 nightly) = true
  ∧ entries (start 86340 nightly) !! 0%nat
    = Some (mkEntry (mkTask (mkTime 0 0) tt) 86400 false)
  ∧ forallb (quiet_before 172800 0) [Tick 86460; Tick 172740] = true
  ∧ of_task 0 (drive (Tick 86400 :: Done 0 (Raised "boom")
                       :: [Tick 86460; Tick 172740] ++ [Tick 172800])
                 (start 86340 nightly)).2
    = [Invoke 0 86400 86400; Failure 0 "boom"; Invoke 0 172800 172800].
Proof.
  split; [reflexivity|]. split; [reflexivity|]. split; [reflexivity|].
  refine (proj1 (failure_is_contained (start 86340 nightly) 0
    (mkEntry (mkTask (mkTime 0 0) tt) 86400 false) "boom" 86400 172800
    [Tick 86460; Tick 172740] eq_refl eq_refl eq_refl eq_refl eq_refl _ eq_refl _)).
  - cbn. unfold day. lia.
  - cbn. unfold day. lia.
Defined.

End SchedulerExamples.

(** * More about the configuration *)

Section ConfigExtras.
Import Config.

Lemma load_config_dom (env : gmap string string) :
  dom (load_config env) = list_to_set key_defaults.*1.
Proof.
  unfold load_config.
  assert (Hgen : ∀ (l : list (string * Py.value)) (m : gmap string Py.value),
            dom (foldl (λ cfg kd, <[kd.1:=Py.or_ (getenv env kd.1) kd.2]> cfg) m l)
            = dom m ∪ list_to_set l.*1).
  { induction l as [|kd l IH]; intros m; cbn [foldl].
    - cbn. by rewrite (right_id_L ∅ (∪)).
    - rewrite IH, dom_insert_L, fmap_cons. cbn [list_to_set].
      by rewrite (comm_L (∪) {[kd.1]} (dom m)), (assoc_L (∪)). }
  rewrite Hgen, dom_empty_L. by rewrite (left_id_L ∅ (∪)).
Qed.

Lemma key_defaults_NoDup : NoDup key_defaults.*1.
Proof. apply (bool_decide_eq_true_1 (NoDup key_defaults.*1)). vm_compute. reflexivity. Qed.

Lemma load_config_lookup_inv (env : gmap string string) (key : string) (v : Py.value) :
  load_config env !! key = Some v →
  ∃ default, (key, default) ∈ key_defaults ∧ v = configured env key default.
Proof.
  intros Hv.
  assert (Hdom : key ∈ dom (load_config env)) by (apply elem_of_dom; eauto).
  rewrite load_config_dom, elem_of_list_to_set, list_elem_of_fmap in Hdom.
  destruct Hdom as ([k d] & -> & Hin). exists d. split; [done|].
  pose proof (load_config_lookup env) as Hall. rewrite Forall_forall in Hall.
  specialize (Hall _ Hin). cbn [fst snd] in *. congruence.
Qed.

(** X1: whatever the environment holds, the dictionary [load_config]
    returns has exactly the ten keys of its table, each once: a key is
    present if and only if it is one of the ten. *)
Theorem load_config_has_exactly_its_keys (env : gmap string string) :
  (∀ key, is_Some (load_config env !! key) ↔ key ∈ key_defaults.*1)
  ∧ size (load_config env) = 10%nat.
Proof.
  split.
  - intros key. by rewrite <- elem_of_dom, load_config_dom, elem_of_list_to_set.
  - rewrite <- size_dom, load_config_dom.
    rewrite (size_list_to_set _ key_defaults_NoDup). reflexivity.
Qed.

(** X2: no value of the loaded configuration is an empty string or a zero:
    a value is falsy only when it is [None], and it is [None] only for one
    of the five keys without a default (user name, password, sync URL,
    client id, client secret) whose variable is unset or empty. *)
Theorem load_config_values_truthy_or_none (env : gmap string string) (key : string)
    (v : Py.value) :
  load_config env !! key = Some v →
  v ≠ Py.Str "" ∧ v ≠ Py.Int 0
  ∧ (Py.truthy v = false ↔ v = Py.None_)
  ∧ (v = Py.None_ →
     key ∈ [USER_NAME; PASSWORD; SYNC_URL; CLIENT_ID; CLIENT_SECRET]
     ∧ Host.unset_or_empty env key = true).
Proof.
  intros (d & Hin & ->)%load_config_lookup_inv.
  assert (Hdefaults : Forall (λ kd : string * Py.value,
            (kd.2 = Py.None_
             ∧ kd.1 ∈ [USER_NAME; PASSWORD; SYNC_URL; CLIENT_ID; CLIENT_SECRET])
            ∨ (Py.truthy kd.2 = true ∧ kd.2 ≠ Py.None_)) key_defaults).
  { unfold key_defaults.
    repeat (constructor;
            [ first [ left; split; [reflexivity|];
                      apply (bool_decide_eq_true_1 (_ ∈ _)); reflexivity
                    | right; split; [reflexivity|discriminate] ] | ]).
    constructor. }
  rewrite Forall_forall in Hdefaults. specialize (Hdefaults _ Hin). cbn [fst snd] in Hdefaults.
  unfold configured, Host.unset_or_empty.
  destruct (env !! key) as [s|] eqn:Hs.
  - destruct (String.eqb s "") eqn:Hempty.
    + destruct Hdefaults as [[-> Hkey]|[Htruthy Hnone]].
      * repeat split; try discriminate; auto.
      * repeat split; try (intros ->; discriminate); try congruence.
    + repeat split; try discriminate.
      * intros [= ->]. discriminate.
      * cbn. by rewrite Hempty.
  - destruct Hdefaults as [[-> Hkey]|[Htruthy Hnone]].
    + repeat split; try discriminate; auto.
    + repeat split; try (intros ->; discriminate); try congruence.
Qed.

(** X3: [load_config] reads the ten variables of its table and nothing
    else: two environments that agree on them give the same
    configuration. *)
Theorem load_config_reads_only_its_keys (env1 env2 : gmap string string) :
  forallb (λ key, bool_decide (env1 !! key = env2 !! key)) key_defaults.*1 = true →
  load_config env1 = load_config env2.
Proof.
  intros Hagree. apply map_eq. intros key.
  destruct (decide (key ∈ key_defaults.*1)) as [Hkey|Hkey].
  - rewrite forallb_forall in Hagree.
    assert (Hsame : env1 !! key = env2 !! key).
    { apply (bool_decide_eq_true_1 (env1 !! key = env2 !! key)), Hagree.
      by apply list_elem_of_In. }
    apply list_elem_of_fmap in Hkey as ([k d] & -> & Hin).
    pose proof (load_config_lookup env1) as H1. rewrite Forall_forall in H1.
    pose proof (load_config_lookup env2) as H2. rewrite Forall_forall in H2.
    rewrite (H1 _ Hin), (H2 _ Hin). cbn [fst snd] in *.
    unfold configured. by rewrite Hsame.
  - assert (Hnone : ∀ env, load_config env !! key = None).
    { intros env. apply not_elem_of_dom.
      by rewrite load_config_dom, elem_of_list_to_set. }
    by rewrite !Hnone.
Qed.

End ConfigExtras.

(** * More about the strings of the script *)

Section PyExtras.

Lemma prefix_app (p s : string) :
  String.prefix p s = true ↔ ∃ post, s = p +:+ post.
Proof.
  revert s. induction p as [|a p IH]; intros s.
  - split; [by exists s|]. by destruct s.
  - destruct s as [|b s]; cbn.
    + split; [done|]. by intros [post [=]].
    + destruct (ascii_dec a b) as [->|Hne].
      * rewrite IH. split; intros [post Hpost]; exists post; cbn in *;
          [by subst|by injection Hpost].
      * split; [done|]. intros [post Hpost]. cbn in Hpost.
        injection Hpost as Hab _. by destruct Hne.
Qed.

(** [needle in hay] holds exactly when [hay] is some text, the needle, and
    some text. *)
Lemma contains_spec (needle hay : string) :
  Py.contains needle hay = true ↔ ∃ pre post, hay = pre +:+ needle +:+ post.
Proof.
  induction hay as [|c hay IH]; cbn [Py.contains].
  - rewrite orb_false_r, prefix_app. split.
    + intros [post ->]. by exists "", post.
    + intros (pre & post & Heq). destruct pre as [|? ?]; [|done].
      by exists post.
  - rewrite orb_true_iff, prefix_app, IH. split.
    + intros [[post ->]|(pre & post & ->)].
      * by exists "", post.
      * by exists (String c pre), post.
    + intros (pre & post & Heq). destruct pre as [|c' pre].
      * left. by exists post.
      * right. injection Heq as -> ->. by exists pre, post.
Qed.

(** A run of characters that holds no whitespace is flushed as a token. *)
Lemma flush_token (a : ascii) (cur : list ascii) :
  forallb (λ c, negb (Py.isspace c)) (a :: cur) = true →
  Py.is_token (string_of_list_ascii (rev (a :: cur))) = true.
Proof.
  intros Hcur. unfold Py.is_token. rewrite list_ascii_of_string_of_list_ascii.
  apply andb_true_iff. split.
  - destruct (rev (a :: cur)) as [|b l] eqn:Hrev; [|done].
    apply (f_equal (@length _)) in Hrev. rewrite length_rev in Hrev. done.
  - rewrite forallb_forall in *. intros x Hx%in_rev. by apply Hcur.
Qed.

Lemma split_go_tokens (cur : list ascii) (s : string) :
  forallb (λ c, negb (Py.isspace c)) cur = true →
  Forall (λ t, Py.is_token t = true) (Py.split_go cur s).
Proof.
  revert cur. induction s as [|c s IH]; intros cur Hcur; cbn [Py.split_go].
  - destruct cur as [|a cur]; [constructor|]. repeat constructor.
    by apply flush_token.
  - destruct (Py.isspace c) eqn:Hc.
    + apply Forall_app. split; [|by apply IH].
      destruct cur as [|a cur]; [constructor|]. repeat constructor.
      by apply flush_token.
    + apply IH. cbn. by rewrite Hc.
Qed.

Lemma split_blank (s : string) : Py.blank s = true → Py.split s = [].
Proof.
  unfold Py.blank, Py.split. induction s as [|c s IH]; [done|].
  cbn. intros [Hc Hs]%andb_true_iff. rewrite Hc. by apply IH.
Qed.

(** Reading a token that is followed by the end or by a space. *)
Lemma split_go_token (t : list ascii) (cur : list ascii) (rest : string) :
  forallb (λ c, negb (Py.isspace c)) t = true →
  Py.split_go cur (string_of_list_ascii t +:+ rest)
  = Py.split_go (rev t ++ cur) rest.
Proof.
  revert cur. induction t as [|c t IH]; intros cur Ht; [done|].
  cbn in Ht. apply andb_true_iff in Ht as [Hc Ht].
  apply negb_true_iff in Hc.
  change (string_of_list_ascii (c :: t) +:+ rest)
    with (String c (string_of_list_ascii t +:+ rest)).
  cbn [Py.split_go]. rewrite Hc, (IH _ Ht). cbn [rev].
  by rewrite <- app_assoc.
Qed.

Lemma append_empty_r (s : string) : s +:+ EmptyString = s.
Proof.
  induction s as [|c s IH]; [done|].
  change (String c (s +:+ EmptyString) = String c s). by f_equal.
Qed.

(** [' '.join(l).split()] gives back a list of tokens. *)
Lemma split_join (l : list string) :
  Forall (λ t, Py.is_token t = true) l →
  Py.split (String.concat " " l) = l.
Proof.
  unfold Py.split. induction 1 as [|t l Ht Hl IH]; [done|].
  unfold Py.is_token in Ht. apply andb_true_iff in Ht as [Hne Ht].
  assert (Hflush : ∀ rest,
            Py.split_go [] (t +:+ rest)
            = Py.split_go (rev (list_ascii_of_string t)) rest).
  { intros rest. rewrite <- (string_of_list_ascii_of_string t) at 1.
    by rewrite (split_go_token _ [] rest Ht), app_nil_r. }
  assert (Hcur : match rev (list_ascii_of_string t) with
                 | [] => []
                 | _ :: _ => [string_of_list_ascii (rev (rev (list_ascii_of_string t)))]
                 end = [t]).
  { rewrite rev_involutive, string_of_list_ascii_of_string.
    destruct (rev (list_ascii_of_string t)) eqn:Hrev; [|done].
    apply (f_equal (@rev _)) in Hrev. rewrite rev_involutive in Hrev. cbn in Hrev.
    apply (f_equal string_of_list_ascii) in Hrev.
    rewrite string_of_list_ascii_of_string in Hrev. subst t. done. }
  destruct l as [|t' l].
  - cbn [String.concat]. rewrite <- (append_empty_r t) at 1.
    rewrite Hflush. cbn [Py.split_go]. exact Hcur.
  - change (String.concat " " (t :: t' :: l))
      with (t +:+ String " " (String.concat " " (t' :: l))).
    rewrite Hflush. cbn [Py.split_go].
    change (Py.isspace " ") with true. cbn iota.
    rewrite Hcur, IH. done.
Qed.

End PyExtras.

(** * More about the set-up and the main program *)

Section HostExtras.
Import Config Host.
Context {W : Type} `{World W}.

(** ** More steps of the monad *)

Lemma bind_unix_like {B} (k : bool → M B) (w : W) :
  (unix_like ≫= k) w = k (negb (Py.contains "win" (sys_platform w))) w.
Proof. rewrite (bind_ok _ _ _ _ _ _ (unix_like_run w)). apply emit_nil. Qed.

Lemma eq_str_true (v : Py.value) (lit : string) :
  Py.eq_str v lit = true → v = Py.Str lit.
Proof. destruct v as [|s|z]; try done. cbn. by intros ->%String.eqb_eq. Qed.

(** A list written out ends with its last element, or its last two. *)
Lemma ends_with_one {A} (y : A) : [y] = [] ++ [y].
Proof. reflexivity. Qed.

Lemma ends_with_two {A} (y z : A) : [y; z] = [] ++ [y; z].
Proof. reflexivity. Qed.

Lemma ends_with_cons {A} (x : A) (l pre post : list A) :
  l = pre ++ post → x :: l = (x :: pre) ++ post.
Proof. by intros ->. Qed.

Ltac ends_with :=
  first [ apply ends_with_one | apply ends_with_two
        | apply ends_with_cons; ends_with ].

Lemma lookup_loaded (env : gmap string string) (key : string) (default : Py.value) :
  bool_decide ((key, default) ∈ key_defaults) = true →
  Config.load_config env !! key = Some (configured env key default).
Proof.
  intros Hin%bool_decide_eq_true_1.
  pose proof (load_config_lookup env) as Hall.
  rewrite Forall_forall in Hall. exact (Hall _ Hin).
Qed.

(** Unfolds the binds and the calls of a computation down to the answers
    of the surroundings. *)
Ltac run_open :=
  cbv beta iota zeta delta
    [mbind mret M_bind M_ret bind ret raise quit wait out_of_fuel
     which run check_output show_selection_dialog logging home platform environ
     path_exists makedirs basicConfig load_dotenv TimeScheduler add start
     unix_like item fst snd].

(** Splits at the next answer or test. *)
Ltac run_case :=
  match goal with
  | |- context [Config.load_config ?env !! RCLONE_REMOTE_NAME] =>
      rewrite (lookup_loaded env RCLONE_REMOTE_NAME (Py.Str "IliasDL-Cloud-Drive"))
        by reflexivity
  | |- context [Config.load_config ?env !! CLIENT_ID] =>
      rewrite (lookup_loaded env CLIENT_ID Py.None_) by reflexivity
  | |- context [Config.load_config ?env !! CLIENT_SECRET] =>
      rewrite (lookup_loaded env CLIENT_SECRET Py.None_) by reflexivity
  | |- context [match subprocess_run ?c ?w with _ => _ end] =>
      destruct (subprocess_run c w) as [? ?] eqn:?
  | |- context [match console_dialog ?o ?k ?t ?w with _ => _ end] =>
      destruct (console_dialog o k t w) as [? ?] eqn:?
  | |- context [match subprocess_check_output ?c ?w with _ => _ end] =>
      destruct (subprocess_check_output c w) as [[?|] ?] eqn:?
  | |- context [if negb ?b then _ else _] =>
      destruct b eqn:?; change (negb true) with false; change (negb false) with true
  | |- context [if ?b then _ else _] => destruct b eqn:?
  | |- context [match ?x with Some _ => _ | None => _ end] => destruct x eqn:?
  | |- context [match ?x with Py.None_ => _ | Py.Str _ => _ | Py.Int _ => _ end] =>
      destruct x eqn:?
  end;
  cbv beta iota zeta delta [fst snd].

(** Runs a computation along all its paths. *)
Ltac run_steps :=
  run_open; repeat run_case; cbn [app];
  repeat match goal with
         | H : (_, _) = (_, _) |- _ => injection H as ? ?; subst
         end.

Ltac use_tests :=
  repeat match goal with
         | H : (_ =? 0) = _ |- _ => rewrite H; clear H
         end.

(** ** [unix_like] *)

(** X4: [unix_like] answers from [sys.platform] alone, leaves no event and
    changes nothing; it answers False exactly when the platform name holds
    the text 'win' somewhere, at the start or not. *)
Theorem unix_like_false_iff_win (w : W) :
  ∃ b, unix_like w = (Ok b, w, [])
       ∧ (b = false ↔ ∃ pre post, sys_platform w = pre +:+ "win" +:+ post).
Proof.
  exists (negb (Py.contains "win" (sys_platform w))). split; [apply unix_like_run|].
  rewrite negb_false_iff. apply contains_spec.
Qed.

(** X5: on a platform whose name holds 'win' ('darwin' is one)
    [setup_ilias_downloader] does nothing at all: no look-up, no dialog, no
    installation; and [download_ilias_data] runs the downloader by its bare
    name, found on the search path, not the one under ~/.cargo/bin. *)
Theorem win_platform_uses_bare_downloader (env : gmap string string) (w : W) :
  Py.contains "win" (sys_platform w) = true →
  setup_ilias_downloader w = (Ok tt, w, [])
  ∧ String.prefix "KIT-ILIAS-downloader " (download_command_of env w) = true
  ∧ ∃ rc rest,
      (download_ilias_data (Config.load_config env) w).2
      = EvLog INFO "Starting ilias download..."
        :: EvRun (download_command_of env w) rc :: rest.
Proof.
  intros Hwin. split; [|split].
  - unfold setup_ilias_downloader. rewrite bind_unix_like, Hwin. cbn [negb].
    by rewrite bind_ret.
  - unfold download_command_of. rewrite Hwin. cbn [negb].
    by destruct (Py.truthy _).
  - rewrite download_ilias_data_run. cbn zeta. unfold emit. cbn [snd app].
    eauto.
Qed.

(** ** [setup_ilias_downloader] *)

(** X6: the ways [setup_ilias_downloader] ends.  It returns only when every
    command it ran returned 0; it raises an [Exception] only directly after
    a command that returned another code, the commands before having
    returned 0; it quits only after a dialog answered by something else
    than 'y', having run nothing; a run never hangs. *)
Theorem setup_ilias_downloader_endings (w : W) :
  let r := setup_ilias_downloader w in
  match r.1.1 with
  | Ok _ => forallb run_succeeded r.2 = true
  | Raised e =>
      ∃ pre c rc msg, r.2 = pre ++ [EvRun c rc] ∧ rc ≠ 0 ∧ e = Exception msg
                      ∧ forallb run_succeeded pre = true
  | Exited => refused r.2 ∧ commands r.2 = []
  | Blocked | OutOfFuel => False
  end.
Proof.
  cbn zeta. unfold setup_ilias_downloader. run_steps.
  all: try reflexivity.
  all: try (cbn [forallb run_succeeded andb]; use_tests; reflexivity).
  all: try (eexists _, _, _, _; split; [ends_with|];
            split; [by apply Z.eqb_neq|]; split; [reflexivity|];
            cbn [forallb run_succeeded andb]; use_tests; reflexivity).
  split; [|reflexivity].
  eexists _, _, _, _, _. split; [ends_with|done].
Qed.


Ltac use_answer :=
  match goal with
  | H : Py.eq_str ?v _ = true |- _ => apply eq_str_true in H; subst v
  end.

Ltac in_list := rewrite ?elem_of_cons; repeat first [left; reflexivity | right].

(** X7: [setup_ilias_downloader] runs a command only on a platform that
    counts as unix-like, when the downloader is not found under the home
    directory, and after the user answered 'y' to the question; what it runs
    then is [cargo install] alone when [cargo] is found, and the rustup
    script, followed by [cargo install] unless rustup fails, when it is not. *)
Theorem installers_run_only_after_consent (w : W) :
  let tr := (setup_ilias_downloader w).2 in
  commands tr ≠ [] →
  Py.contains "win" (sys_platform w) = false
  ∧ shutil_which (downloader_path w) w = false
  ∧ (∃ pre options keys title post,
       tr = pre ++ EvDialog options keys title (Py.Str "y") :: post
       ∧ commands pre = [])
  ∧ ((commands tr = [cargo_install_command] ∧ EvWhich "cargo" true ∈ tr)
     ∨ ((commands tr = [rustup_command]
         ∨ commands tr = [rustup_command; cargo_install_command])
        ∧ EvWhich "cargo" false ∈ tr)).
Proof.
  cbn zeta. unfold setup_ilias_downloader, downloader_path. run_steps.
  all: unfold commands; cbn [omap list_omap]; intros Hrun; try by destruct Hrun.
  all: split; [reflexivity|]; split; [reflexivity|]; use_answer.
  all: split; [by eexists [_], _, _, _, _|].
  all: first [ left; split; [reflexivity|in_list]
             | right; split; [by (left + right)|in_list] ].
Qed.

(** ** [setup_rclone] *)

Lemma index_none {A} (l : list A) (i : Z) :
  Py.index l i = None → i < - Z.of_nat (length l) ∨ Z.of_nat (length l) ≤ i.
Proof.
  unfold Py.index. intros Hnone.
  destruct ((0 <=? i) && (i <? Z.of_nat (length l))) eqn:Hin.
  - apply lookup_ge_None in Hnone. lia.
  - destruct ((- Z.of_nat (length l) <=? i) && (i <? 0)) eqn:Hneg; [|lia].
    apply lookup_ge_None in Hnone. lia.
Qed.

(** X8: [setup_rclone] returns True exactly when [rclone] is found and the
    output of [rclone listremotes] holds, as one of its whitespace-separated
    entries, the configured remote name followed by a colon; it has then
    done nothing but these two calls: no dialog, no command. *)
Theorem setup_rclone_true_iff_listed (env : gmap string string) (w : W) :
  let r := setup_rclone (Config.load_config env) w in
  (r.1.1 = Ok true ↔
     shutil_which "rclone" w = true
     ∧ ∃ out, (subprocess_check_output "rclone listremotes" w).1 = Some out
              ∧ remote_token env ∈ Py.split out)
  ∧ (r.1.1 = Ok true →
     ∃ out, r.2 = [EvWhich "rclone" true; EvCheckOutput "rclone listremotes" (Some out)]).
Proof.
  cbn zeta. unfold setup_rclone, remote_token. run_steps.
  all: split; [split|]; try discriminate; try (intros [? _]; discriminate).
  all: try (intros (_ & out & ? & _); discriminate).
  all: try (intros (_ & out & [= <-] & Hin);
            match goal with
            | H : bool_decide _ = false |- _ => by apply bool_decide_eq_false_1 in H
            end).
  - intros _. split; [reflexivity|]. eexists. split; [reflexivity|].
    match goal with
    | H : bool_decide _ = true |- _ => by apply bool_decide_eq_true_1 in H
    end.
  - done.
  - intros _. by eexists.
Qed.

(** X9: the exceptions of [setup_rclone], none of which comes after a
    command was run.  [rclone] not found: the [Exception] of the script,
    after the look-up alone and with nothing changed.  The call of
    [rclone listremotes] raising: its exception, whatever it is (a
    [CalledProcessError] for a command that fails, a [UnicodeDecodeError]
    for output that is not UTF-8), right after that call and before any
    dialog.  The provider dialog returning no [int]: a [TypeError]; an
    [int] below -4: an [IndexError]; both directly after that dialog. *)
Theorem setup_rclone_raises (env : gmap string string) (w : W) (e : exn) :
  let r := setup_rclone (Config.load_config env) w in
  r.1.1 = Raised e →
  commands r.2 = []
  ∧ ((e = Exception
            ("Rclone is not installed on this system. It is needed to backup the files to the cloud!"
             +:+ "Install it here: https://rclone.org/")
      ∧ shutil_which "rclone" w = false
      ∧ r.2 = [EvWhich "rclone" false] ∧ r.1.2 = w)
     ∨ (e = subprocess_check_output_error "rclone listremotes" w
        ∧ shutil_which "rclone" w = true
        ∧ (subprocess_check_output "rclone listremotes" w).1 = None
        ∧ r.2 = [EvWhich "rclone" true; EvCheckOutput "rclone listremotes" None])
     ∨ (∃ pre options keys title answer,
          r.2 = pre ++ [EvDialog options keys title answer]
          ∧ ((e = TypeError ∧ ∀ z, answer ≠ Py.Int z)
             ∨ (e = IndexError ∧ ∃ z, answer = Py.Int z ∧ z < -4)))).
Proof.
  cbn zeta. unfold setup_rclone.
  change (Z.of_nat (length provider_options) - 1) with 3.
  run_steps.
  all: intros Hr; try discriminate.
  all: injection Hr as <-; split; [reflexivity|].
  all: try (left; by repeat split).
  all: try (right; left; by repeat split).
  all: right; right; eexists _, _, _, _, _; split; [ends_with|].
  all: try (left; split; [reflexivity|]; intros z'; discriminate).
  all: right; split; [reflexivity|]; eexists; split; [reflexivity|].
  all: match goal with
       | H : Py.index _ _ = None |- _ =>
           apply index_none in H;
           change (Z.of_nat (length provider_options)) with 4 in H
       end.
  all: match goal with H : (_ <? 3) = true |- _ => apply Z.ltb_lt in H end; lia.
Qed.

Ltac use_truthy :=
  repeat match goal with
         | H : Py.truthy _ = _ |- _ => rewrite H; clear H
         end.

(** X10: [setup_rclone] returns None (and the loop of the main program
    goes round again) only after the user answered 'y' and one command was
    run, which is its last action and whose return code it does not look
    at.  The command follows from the answer [z] of the provider dialog:
    below 3, [rclone config create] for the provider [options[z]], with the
    client id and secret when both are configured; from 3 on,
    [rclone config]. *)
Theorem setup_rclone_none_after_one_command (env : gmap string string) (w : W) :
  let r := setup_rclone (Config.load_config env) w in
  r.1.1 = Ok false →
  ∃ pre c rc z,
    r.2 = pre ++ [EvRun c rc]
    ∧ commands pre = []
    ∧ (∃ options keys title, EvDialog options keys title (Py.Str "y") ∈ pre)
    ∧ EvDialog ["GoogleDrive"; "Dropbox"; "OneDrive"; "Other (manual setup using rclone)"]
               None "Choose your cloud provider" (Py.Int z) ∈ pre
    ∧ (z < 3 → ∃ provider, Py.index provider_options z = Some provider
                           ∧ c = create_command env provider)
    ∧ (3 ≤ z → c = "rclone config").
Proof.
  cbn zeta. unfold setup_rclone.
  change (Z.of_nat (length provider_options) - 1) with 3.
  run_steps.
  all: intros Hr; try discriminate; use_answer.
  all: eexists _, _, _, _; split; [ends_with|]; split; [reflexivity|].
  all: split; [eexists _, _, _; in_list|]; split; [in_list|].
  all: match goal with
       | H : (_ <? 3) = true |- _ => apply Z.ltb_lt in H
       | H : (_ <? 3) = false |- _ => apply Z.ltb_ge in H
       end.
  all: split; intros Hz; try lia; try reflexivity.
  all: eexists; split; [eassumption|].
  all: unfold create_command; cbn zeta; use_truthy; reflexivity.
Qed.

(** ** The set-up loop *)

Lemma refused_app (t1 t2 : list event) : refused t2 → refused (t1 ++ t2).
Proof.
  intros (pre & options & keys & title & answer & -> & Hno).
  exists (t1 ++ pre), options, keys, title, answer. by rewrite app_assoc.
Qed.

(** A round of the loop: the remote is listed; or one command was run
    after one listing; or it ends with an exception or with a refusal. *)
Lemma setup_rclone_round (env : gmap string string) (w : W) :
  let r := setup_rclone (Config.load_config env) w in
  match r.1.1 with
  | Ok true =>
      ∃ out, r.2 = [EvWhich "rclone" true; EvCheckOutput "rclone listremotes" (Some out)]
             ∧ remote_token env ∈ Py.split out
  | Ok false =>
      length (List.filter is_check_output r.2) = 1%nat ∧ length (commands r.2) = 1%nat
  | Raised _ => True
  | Exited => refused r.2
  | Blocked | OutOfFuel => False
  end.
Proof.
  cbn zeta. unfold setup_rclone, remote_token. run_steps.
  all: try reflexivity.
  all: try (split; reflexivity).
  all: try (eexists _, _, _, _, _; split; [ends_with|assumption]).
  eexists. split; [reflexivity|].
  match goal with
  | H : bool_decide _ = true |- _ => by apply bool_decide_eq_true_1 in H
  end.
Qed.

(** The set-up of the downloader lists no remotes, and ends, when it does
    not return, with an exception or with a refusal. *)
Lemma setup_ilias_downloader_round (w : W) :
  let r := setup_ilias_downloader w in
  List.filter is_check_output r.2 = []
  ∧ match r.1.1 with
    | Ok _ => True
    | Raised _ => True
    | Exited => refused r.2
    | Blocked | OutOfFuel => False
    end.
Proof.
  cbn zeta. unfold setup_ilias_downloader. run_steps.
  all: split; [reflexivity|]; try reflexivity; try exact I.
  eexists _, _, _, _, _. split; [ends_with|assumption].
Qed.

Lemma commands_app (t1 t2 : list event) : commands (t1 ++ t2) = commands t1 ++ commands t2.
Proof. unfold commands. apply omap_app. Qed.

(** X11: the loop [while not set_up_complete] of the main program ends
    normally only with a round in which [rclone] was found and
    [rclone listremotes] listed the configured remote, these two calls being
    the last events; every round before ran one set-up command, so that the
    remotes were listed once more than commands were run. *)
Theorem setup_loop_returns_once_listed (fuel : nat) (env : gmap string string) (w : W) :
  let r := setup_loop fuel (Config.load_config env) w in
  r.1.1 = Ok tt →
  ∃ pre out,
    r.2 = pre ++ [EvWhich "rclone" true; EvCheckOutput "rclone listremotes" (Some out)]
    ∧ remote_token env ∈ Py.split out
    ∧ length (List.filter is_check_output r.2) = S (length (commands r.2)).
Proof.
  cbn zeta. revert w. induction fuel as [|fuel IH]; intros w; [discriminate|].
  cbn [setup_loop]. rewrite bind_unfold.
  pose proof (setup_rclone_round env w) as Hround. cbn zeta in Hround.
  destruct (setup_rclone (Config.load_config env) w) as [[[[|]|e| | |] w1] t1];
    cbn [fst snd] in Hround; try discriminate.
  - intros _. destruct Hround as (out & -> & Hin).
    exists [], out. by repeat split.
  - intros Hok. unfold emit in Hok |- *. cbn [fst snd] in Hok |- *.
    destruct (IH w1 Hok) as (pre & out & Htr & Hin & Hcount).
    destruct Hround as [Hchecks Hruns].
    exists (t1 ++ pre), out. split; [by rewrite Htr, app_assoc|]. split; [done|].
    rewrite List.filter_app, commands_app, !length_app, Hchecks, Hruns, Hcount. lia.
Qed.

(** ** The phases of the main program *)

(** A run of the main program stops at the credentials, in the set-up, in
    the first run, or reaches the scheduling block. *)
Lemma main_phases (fuel : nat) (w : W) :
  let w1 := startup_world w in
  let env := os_environ w1 in
  let config := Config.load_config env in
  (∃ msg, (unset_or_empty env USER_NAME = true ∨ unset_or_empty env PASSWORD = true)
          ∧ main fuel w = (Ok tt, w1, startup_trace w ++ [EvLog ERROR msg]))
  ∨ (unset_or_empty env USER_NAME = false ∧ unset_or_empty env PASSWORD = false
     ∧ ((∃ o w2 t2, setup fuel config w1 = (o, w2, t2) ∧ o ≠ Ok tt
                    ∧ main fuel w = (o, w2, startup_trace w ++ t2))
        ∨ (∃ w2 t2 o w3 t3, setup fuel config w1 = (Ok tt, w2, t2)
                            ∧ initial_run config w2 = (o, w3, t3) ∧ o ≠ Ok tt
                            ∧ main fuel w = (o, w3, startup_trace w ++ t2 ++ t3))
        ∨ (∃ w2 t2 w3 t3, setup fuel config w1 = (Ok tt, w2, t2)
                          ∧ initial_run config w2 = (Ok tt, w3, t3)
                          ∧ main fuel w
                            = emit (startup_trace w ++ t2 ++ t3) (schedule config w3)))).
Proof.
  cbn zeta. rewrite main_run. cbn zeta. rewrite !truthy_configured.
  destruct (unset_or_empty _ USER_NAME) eqn:Huser; cbn [negb].
  { left. eexists. split; [by left|reflexivity]. }
  destruct (unset_or_empty _ PASSWORD) eqn:Hpass; cbn [negb].
  { left. eexists. split; [by right|reflexivity]. }
  right. split; [done|]. split; [done|].
  rewrite bind_unfold.
  destruct (setup fuel _ _) as [[[[]|e| | |] w2] t2] eqn:Hsetup.
  2-5: left; eexists _, _, _; split; [reflexivity|]; split; [discriminate|reflexivity].
  right. rewrite bind_unfold.
  destruct (initial_run _ w2) as [[[[]|e| | |] w3] t3] eqn:Hfirst.
  2-5: left; eexists _, _, _, _, _; split; [reflexivity|]; split; [exact Hfirst|];
       split; [discriminate|]; unfold emit; cbn [fst snd]; by rewrite app_assoc.
  right. eexists _, _, _, _. split; [reflexivity|]. split; [exact Hfirst|].
  by rewrite emit_emit, emit_emit, app_assoc.
Qed.

(** The loop of the set-up: when it returns, the last round found the
    remote listed; it quits only on a refusal and never blocks. *)
Lemma setup_loop_round (fuel : nat) (env : gmap string string) (w : W) :
  let r := setup_loop fuel (Config.load_config env) w in
  match r.1.1 with
  | Ok _ =>
      ∃ pre out,
        r.2 = pre ++ [EvWhich "rclone" true; EvCheckOutput "rclone listremotes" (Some out)]
        ∧ remote_token env ∈ Py.split out
  | Raised _ => True
  | Exited => refused r.2
  | Blocked => False
  | OutOfFuel => True
  end.
Proof.
  cbn zeta. revert w. induction fuel as [|fuel IH]; intros w; [reflexivity|].
  cbn [setup_loop]. rewrite bind_unfold.
  pose proof (setup_rclone_round env w) as Hround. cbn zeta in Hround.
  destruct (setup_rclone (Config.load_config env) w) as [[[[|]|e| | |] w1] t1];
    cbn [fst snd] in Hround; try done.
  - destruct Hround as (out & -> & Hin). exists [], out. by split.
  - specialize (IH w1). unfold emit. cbn [fst snd].
    destruct (setup_loop fuel _ w1) as [[[[]|e| | |] w2] t2]; cbn [fst snd] in IH |- *;
      try done.
    + destruct IH as (pre & out & -> & Hin). exists (t1 ++ pre), out.
      by rewrite app_assoc.
    + by apply refused_app.
Qed.

(** The set-up as a whole. *)
Lemma setup_round (fuel : nat) (env : gmap string string) (w : W) :
  let r := setup fuel (Config.load_config env) w in
  match r.1.1 with
  | Ok _ =>
      ∃ pre out,
        r.2 = pre ++ [EvWhich "rclone" true; EvCheckOutput "rclone listremotes" (Some out)]
        ∧ remote_token env ∈ Py.split out
  | Raised _ => True
  | Exited => refused r.2
  | Blocked => False
  | OutOfFuel => True
  end.
Proof.
  cbn zeta. unfold setup. rewrite bind_unfold.
  pose proof (setup_ilias_downloader_round w) as [_ Hfirst]. cbn zeta in Hfirst.
  destruct (setup_ilias_downloader w) as [[[[]|e| | |] w1] t1];
    cbn [fst snd] in Hfirst; try done.
  pose proof (setup_loop_round fuel env w1) as Hloop. cbn zeta in Hloop.
  unfold emit. cbn [fst snd].
  destruct (setup_loop fuel _ w1) as [[[[]|e| | |] w2] t2]; cbn [fst snd] in Hloop |- *;
    try done.
  - destruct Hloop as (pre & out & -> & Hin). exists (t1 ++ pre), out.
    by rewrite app_assoc.
  - by apply refused_app.
Qed.

(** The first run returns or raises the exception of a failed download;
    it begins with the test for 'output' and lists no remotes. *)
Lemma initial_run_round (env : gmap string string) (w : W) :
  let r := initial_run (Config.load_config env) w in
  (r.1.1 = Ok tt ∨ r.1.1 = Raised (Exception download_failed))
  ∧ (∃ rest, r.2 = EvPathExists "output" (os_path_exists "output" w) :: rest)
  ∧ List.filter is_check_output r.2 = [].
Proof.
  cbn zeta. rewrite initial_run_run.
  destruct (os_path_exists "output" w).
  { split; [by left|]. split; [by eexists|reflexivity]. }
  rewrite download_ilias_data_run. cbn zeta.
  destruct (_ =? 0).
  - rewrite upload_rclone_run. cbn zeta. unfold emit. cbn [fst snd app].
    split; [by left|]. split; [by eexists|reflexivity].
  - unfold emit. cbn [fst snd app].
    split; [by right|]. split; [by eexists|reflexivity].
Qed.

(** The scheduling block blocks after handing every time text to [add],
    or ends with the exception of the first [add] that raises. *)
Lemma schedule_round (env : gmap string string) (w : W) :
  let r := schedule (Config.load_config env) w in
  let times := times_of env in
  let announce := EvLog INFO ("Scheduling automatic downloads for " +:+ Py.repr_list times) in
  (r.1.1 = Blocked
   ∧ r.2 = [announce; EvTimeScheduler]
           ++ map (λ t, EvAdd (mkTask t CbDownloadIliasData) None) times
           ++ [EvStart; EvWait])
  ∨ (∃ l1 t l2 e,
       times = l1 ++ t :: l2 ∧ r.1.1 = Raised e
       ∧ r.2 = [announce; EvTimeScheduler]
               ++ map (λ t, EvAdd (mkTask t CbDownloadIliasData) None) l1
               ++ [EvAdd (mkTask t CbDownloadIliasData) (Some e)]).
Proof.
  cbn zeta. rewrite schedule_run. cbn zeta. rewrite bind_unfold.
  destruct (for_each_add (λ t, mkTask t CbDownloadIliasData) (times_of env) (ts_new w))
    as [[Ho Ht]|(l1 & t & l2 & e & Hl & Ho & Ht)];
    destruct (for_each _ _ _) as [[o w1] tr]; cbn [fst snd] in *; subst o tr.
  - left. rewrite bind_unfold. unfold start at 1, wait, emit. cbn [fst snd]. by split.
  - right. exists l1, t, l2, e. unfold emit. cbn [fst snd]. by repeat split.
Qed.

(** ** How the main program ends *)

(** X12: the main program returns (rather than raising, quitting or
    blocking) exactly when the user name or the password is unset or empty
    after [load_dotenv()]: once both are there it never returns. *)
Theorem main_returns_iff_credentials_missing (fuel : nat) (w : W) :
  let env := os_environ (startup_world w) in
  (main fuel w).1.1 = Ok tt
  ↔ unset_or_empty env USER_NAME = true ∨ unset_or_empty env PASSWORD = true.
Proof.
  cbn zeta.
  destruct (main_phases fuel w)
    as [(msg & Hmissing & Hmain)
       |(Huser & Hpass & [(o & w2 & t2 & _ & Ho & Hmain)
                         |[(w2 & t2 & o & w3 & t3 & _ & _ & Ho & Hmain)
                          |(w2 & t2 & w3 & t3 & _ & _ & Hmain)]])];
    rewrite Hmain; cbn [fst snd].
  - by split.
  - split; [done|]. rewrite Huser, Hpass. by intros [|].
  - split; [done|]. rewrite Huser, Hpass. by intros [|].
  - split; [|rewrite Huser, Hpass; by intros [|]].
    unfold emit. cbn [fst].
    destruct (schedule_round (os_environ (startup_world w)) w3)
      as [[Hb _]|(l1 & t & l2 & e & _ & Hr & _)]; congruence.
Qed.

(** X14: the main program ends with [quit()] only directly after a dialog
    of the set-up that was answered by something else than 'y'; it has then
    not started a download and has not touched the scheduler. *)
Theorem main_quits_only_on_refusal (fuel : nat) (w : W) :
  (main fuel w).1.1 = Exited →
  refused (main fuel w).2 ∧ forallb is_preparation (main fuel w).2 = true.
Proof.
  destruct (main_phases fuel w)
    as [(msg & Hmissing & Hmain)
       |(Huser & Hpass & [(o & w2 & t2 & Hsetup & Ho & Hmain)
                         |[(w2 & t2 & o & w3 & t3 & _ & Hfirst & Ho & Hmain)
                          |(w2 & t2 & w3 & t3 & _ & _ & Hmain)]])];
    rewrite Hmain; cbn [fst snd].
  - discriminate.
  - intros ->. split.
    + apply refused_app.
      pose proof (setup_round fuel (os_environ (startup_world w)) (startup_world w))
        as Hround.
      cbn zeta in Hround. by rewrite Hsetup in Hround.
    + rewrite forallb_app, startup_prepares.
      pose proof (setup_prepares fuel (Config.load_config (os_environ (startup_world w)))
                    (startup_world w)) as Hprep.
      by rewrite Hsetup in Hprep.
  - intros ->.
    destruct (initial_run_round (os_environ (startup_world w)) w2) as ([Hr|Hr] & _);
      rewrite Hfirst in Hr; discriminate.
  - unfold emit. cbn [fst snd]. intros Hquit.
    destruct (schedule_round (os_environ (startup_world w)) w3)
      as [[Hb _]|(l1 & t & l2 & e' & _ & Hr & Htr)]; congruence.
Qed.

(** X15: the main program reaches the wait only through the whole
    scheduling block: a run that blocks has made, after everything else,
    the calls [TimeScheduler()], one accepted [add] for every token of
    the upload times, in order, and [start()], and then waits. *)
Theorem main_blocks_after_start (fuel : nat) (w : W) :
  let env := os_environ (startup_world w) in
  (main fuel w).1.1 = Blocked →
  ∃ pre,
    (main fuel w).2
    = pre ++ [EvTimeScheduler]
      ++ map (λ t, EvAdd (mkTask t CbDownloadIliasData) None) (times_of env)
      ++ [EvStart; EvWait]
    ∧ forallb (λ e, negb (is_scheduler_call e)) pre = true.
Proof.
  cbn zeta.
  destruct (main_phases fuel w)
    as [(msg & Hmissing & Hmain)
       |(Huser & Hpass & [(o & w2 & t2 & Hsetup & Ho & Hmain)
                         |[(w2 & t2 & o & w3 & t3 & _ & Hfirst & Ho & Hmain)
                          |(w2 & t2 & w3 & t3 & Hsetup & Hfirst & Hmain)]])];
    rewrite Hmain; cbn [fst snd].
  - discriminate.
  - intros ->.
    pose proof (setup_round fuel (os_environ (startup_world w)) (startup_world w)) as Hround.
    cbn zeta in Hround. by rewrite Hsetup in Hround.
  - intros ->.
    destruct (initial_run_round (os_environ (startup_world w)) w2) as ([Hr|Hr] & _);
      rewrite Hfirst in Hr; discriminate.
  - unfold emit. cbn [fst snd]. intros Hblocked.
    destruct (schedule_round (os_environ (startup_world w)) w3)
      as [[_ Htr]|(l1 & t & l2 & e' & _ & Hr & _)]; [|congruence].
    cbn zeta in Htr. rewrite Htr.
    eexists (_ ++ [_]). split.
    + exact (app_assoc _ [_] _).
    + rewrite forallb_app.
      rewrite (before_schedule_no_scheduler fuel _ _ _ _ _ _ _ w Hsetup Hfirst).
      reflexivity.
Qed.

(** ** What the program logs *)








(** ** What comes before the scheduling *)

Lemma added_preparation (tr : list event) :
  forallb (λ e, negb (is_scheduler_call e)) tr = true → added tr = [].
Proof. intros Hno. by apply added_none, filter_none. Qed.

(** X18: the main program starts a download or calls the scheduler only
    after a round of the set-up in which [rclone] was found and
    [rclone listremotes] listed the configured remote: these two calls, and
    the test for 'output' directly after them, come before the first such
    event. *)
Theorem scheduling_only_after_remote_listed (fuel : nat) (w : W) :
  let env := os_environ (startup_world w) in
  forallb is_preparation (main fuel w).2 = false →
  ∃ pre out b post,
    (main fuel w).2
    = pre ++ [EvWhich "rclone" true; EvCheckOutput "rclone listremotes" (Some out);
              EvPathExists "output" b] ++ post
    ∧ remote_token env ∈ Py.split out
    ∧ forallb is_preparation pre = true.
Proof.
  cbn zeta.
  assert (Hsplit : ∀ w2 t2 o w3 t3 rest,
            setup fuel (Config.load_config (os_environ (startup_world w))) (startup_world w)
            = (Ok tt, w2, t2) →
            initial_run (Config.load_config (os_environ (startup_world w))) w2 = (o, w3, t3) →
            ∃ pre out b post,
              (startup_trace w ++ t2 ++ t3) ++ rest
              = pre ++ [EvWhich "rclone" true;
                        EvCheckOutput "rclone listremotes" (Some out);
                        EvPathExists "output" b] ++ post
              ∧ remote_token (os_environ (startup_world w)) ∈ Py.split out
              ∧ forallb is_preparation pre = true).
  { intros w2 t2 o w3 t3 rest Hsetup Hfirst.
    pose proof (setup_round fuel (os_environ (startup_world w)) (startup_world w)) as Hround.
    cbn zeta in Hround. rewrite Hsetup in Hround. cbn [fst snd] in Hround.
    destruct Hround as (pre & out & -> & Hin).
    destruct (initial_run_round (os_environ (startup_world w)) w2) as (_ & [tl Htl] & _).
    rewrite Hfirst in Htl. cbn [snd] in Htl. subst t3.
    exists (startup_trace w ++ pre), out, (os_path_exists "output" w2), (tl ++ rest).
    split; [by rewrite <- !app_assoc|]. split; [done|].
    pose proof (setup_prepares fuel (Config.load_config (os_environ (startup_world w)))
                  (startup_world w)) as Hprep.
    rewrite Hsetup in Hprep. cbn [snd] in Hprep.
    rewrite forallb_app in Hprep. apply andb_true_iff in Hprep as [Hprep _].
    by rewrite forallb_app, startup_prepares. }
  destruct (main_phases fuel w)
    as [(msg & Hmissing & Hmain)
       |(Huser & Hpass & [(o & w2 & t2 & Hsetup & Ho & Hmain)
                         |[(w2 & t2 & o & w3 & t3 & Hsetup & Hfirst & Ho & Hmain)
                          |(w2 & t2 & w3 & t3 & Hsetup & Hfirst & Hmain)]])];
    rewrite Hmain; cbn [fst snd].
  - rewrite forallb_app, startup_prepares. discriminate.
  - pose proof (setup_prepares fuel (Config.load_config (os_environ (startup_world w)))
                  (startup_world w)) as Hprep.
    rewrite Hsetup in Hprep. cbn [snd] in Hprep.
    rewrite forallb_app, startup_prepares, Hprep. discriminate.
  - intros _. destruct (Hsplit _ _ _ _ _ [] Hsetup Hfirst) as (pre & out & b & post & Htr & H').
    rewrite app_nil_r in Htr. by exists pre, out, b, post.
  - intros _. unfold emit. cbn [snd]. by eapply Hsplit.
Qed.

(** X19: the tasks the main program hands to [add] are, in order, the
    first tokens of the upload times (all of them unless an [add] raised or
    the scheduling block was not reached); each pairs a time text that is
    not empty and holds no whitespace with [download_ilias_data]. *)
Theorem added_tasks_are_leading_tokens (fuel : nat) (w : W) :
  let env := os_environ (startup_world w) in
  let tasks := added (main fuel w).2 in
  tasks `prefix_of` map (λ t, mkTask t CbDownloadIliasData) (times_of env)
  ∧ Forall (λ t, Py.is_token (timeOfDay t) = true ∧ action t = CbDownloadIliasData) tasks.
Proof.
  cbn zeta.
  assert (Hprefix : added (main fuel w).2 `prefix_of`
            map (λ t, mkTask t CbDownloadIliasData) (times_of (os_environ (startup_world w)))).
  { destruct (main_phases fuel w)
      as [(msg & Hmissing & Hmain)
         |(Huser & Hpass & [(o & w2 & t2 & Hsetup & Ho & Hmain)
                           |[(w2 & t2 & o & w3 & t3 & Hsetup & Hfirst & Ho & Hmain)
                            |(w2 & t2 & w3 & t3 & Hsetup & Hfirst & Hmain)]])];
      rewrite Hmain; cbn [fst snd].
    - rewrite added_app, added_preparation; [apply prefix_nil|].
      apply preparation_not_scheduler, startup_prepares.
    - rewrite added_preparation; [apply prefix_nil|].
      pose proof (setup_prepares fuel (Config.load_config (os_environ (startup_world w)))
                    (startup_world w)) as Hprep.
      rewrite Hsetup in Hprep. cbn [snd] in Hprep.
      rewrite forallb_app, (preparation_not_scheduler _ (startup_prepares w)).
      by apply preparation_not_scheduler.
    - rewrite added_preparation; [apply prefix_nil|].
      by apply (before_schedule_no_scheduler fuel _ _ _ _ _ _ _ w Hsetup Hfirst).
    - unfold emit. cbn [snd]. rewrite added_app, added_preparation;
        [|by apply (before_schedule_no_scheduler fuel _ _ _ _ _ _ _ w Hsetup Hfirst)].
      cbn [app].
      destruct (schedule_round (os_environ (startup_world w)) w3)
        as [[_ Htr]|(l1 & t & l2 & e' & Hl & _ & Htr)]; cbn zeta in Htr; rewrite Htr.
      + rewrite !added_app, added_map. cbn. by rewrite app_nil_r.
      + rewrite !added_app, added_map, Hl, map_app. cbn.
        exists (map (λ t, mkTask t CbDownloadIliasData) l2).
        by rewrite <- app_assoc. }
  split; [exact Hprefix|].
  destruct Hprefix as [k Hk].
  assert (Hall : Forall (λ t, Py.is_token (timeOfDay t) = true
                              ∧ action t = CbDownloadIliasData)
                   (map (λ t, mkTask t CbDownloadIliasData)
                      (times_of (os_environ (startup_world w))))).
  { apply Forall_fmap. unfold times_of, Py.split.
    eapply Forall_impl; [by apply split_go_tokens|]. by intros t Ht. }
  rewrite Hk in Hall. by apply Forall_app in Hall as [Hall _].
Qed.

(** ** The upload times *)

(** X20: upload times that are set but hold whitespace only give no token:
    the default does not apply, the scheduling block announces an empty
    list, registers no task, starts the scheduler all the same and
    waits. *)
Theorem blank_upload_times_schedule_nothing (env : gmap string string) (w : W)
    (s : string) :
  env !! UPLOAD_TIMES = Some s → s ≠ "" → Py.blank s = true →
  schedule (Config.load_config env) w
  = (Blocked, ts_start (ts_new w),
     [EvLog INFO "Scheduling automatic downloads for []"; EvTimeScheduler;
      EvStart; EvWait]).
Proof.
  intros Hs Hne Hblank.
  assert (Htimes : times_of env = []).
  { unfold times_of, configured. rewrite Hs.
    destruct (String.eqb s "") eqn:Hempty; [by apply String.eqb_eq in Hempty|].
    by apply split_blank. }
  rewrite schedule_run. cbn zeta. rewrite Htimes. reflexivity.
Qed.

(** X21: upload times written as one or more tokens (texts without
    whitespace, not empty) with one space between them are read back as
    exactly these tokens, in order. *)
Theorem upload_times_round_trip (env : gmap string string) (l : list string) (w : W) :
  l ≠ [] → Forall (λ t, Py.is_token t = true) l →
  env !! UPLOAD_TIMES = Some (String.concat " " l) →
  upload_times (Config.load_config env) w = (Ok l, w, []).
Proof.
  intros Hne Htokens Henv. rewrite upload_times_run.
  unfold times_of, configured. rewrite Henv.
  assert (Hfull : String.eqb (String.concat " " l) "" = false).
  { destruct l as [|t l']; [done|]. apply Forall_cons in Htokens as [Ht _].
    destruct t as [|c t]; [done|]. by destruct l'. }
  rewrite Hfull. cbn [Py.str]. by rewrite split_join.
Qed.

End HostExtras.

(** * The set-up and the main program on examples *)

Section ExtrasExamples.
Import Config Host Scripted.

Lemma load_config_values_truthy_or_none_witness :
  Config.load_config ∅ !! USER_NAME = Some Py.None_
  ∧ USER_NAME ∈ [USER_NAME; PASSWORD; SYNC_URL; CLIENT_ID; CLIENT_SECRET]
  ∧ unset_or_empty ∅ USER_NAME = true.
Proof.
  assert (Hv : Config.load_config ∅ !! USER_NAME = Some Py.None_)
    by (vm_compute; reflexivity).
  split; [exact Hv|].
  destruct (load_config_values_truthy_or_none ∅ USER_NAME Py.None_ Hv)
    as (_ & _ & _ & Hnone).
  exact (Hnone eq_refl).
Defined.

Lemma load_config_reads_only_its_keys_witness :
  forallb (λ key, bool_decide
                    ((list_to_map [("LANG", "C.UTF-8")] : gmap string string) !! key
                     = (list_to_map [("HOME", "/home/kit")] : gmap string string) !! key))
    key_defaults.*1 = true
  ∧ Config.load_config (list_to_map [("LANG", "C.UTF-8")])
    = Config.load_config (list_to_map [("HOME", "/home/kit")]).
Proof.
  assert (Hagree :
    forallb (λ key, bool_decide
                      ((list_to_map [("LANG", "C.UTF-8")] : gmap string string) !! key
                       = (list_to_map [("HOME", "/home/kit")] : gmap string string) !! key))
      key_defaults.*1 = true) by (vm_compute; reflexivity).
  exact (conj Hagree (load_config_reads_only_its_keys _ _ Hagree)).
Defined.

Lemma win_platform_uses_bare_downloader_witness :
  Py.contains "win" (sys_platform w_darwin) = true
  ∧ setup_ilias_downloader w_darwin = (Ok tt, w_darwin, [])
  ∧ String.prefix "KIT-ILIAS-downloader "
      (download_command_of (list_to_map credentials) w_darwin) = true.
Proof.
  assert (Hwin : Py.contains "win" (sys_platform w_darwin) = true) by reflexivity.
  destruct (win_platform_uses_bare_downloader (W:=world) (list_to_map credentials)
              w_darwin Hwin) as (Hsetup & Hbare & _).
  exact (conj Hwin (conj Hsetup Hbare)).
Defined.

Lemma installers_run_only_after_consent_witness :
  commands (setup_ilias_downloader w_install).2 ≠ []
  ∧ shutil_which (downloader_path w_install) w_install = false
  ∧ Py.contains "win" (sys_platform w_install) = false.
Proof.
  assert (Hrun : commands (setup_ilias_downloader w_install).2 ≠ [])
    by (vm_compute; discriminate).
  destruct (installers_run_only_after_consent (W:=world) w_install Hrun)
    as (Hunix & Hmissing & _).
  exact (conj Hrun (conj Hmissing Hunix)).
Defined.

Lemma setup_rclone_raises_witness :
  (setup_rclone (Config.load_config ∅) w_undecodable).1.1 = Raised UnicodeDecodeError
  ∧ commands (setup_rclone (Config.load_config ∅) w_undecodable).2 = []
  ∧ (setup_rclone (Config.load_config ∅) w_undecodable).2
    = [EvWhich "rclone" true; EvCheckOutput "rclone listremotes" None].
Proof.
  assert (Hraised : (setup_rclone (Config.load_config ∅) w_undecodable).1.1
                    = Raised UnicodeDecodeError) by (vm_compute; reflexivity).
  destruct (setup_rclone_raises (W:=world) ∅ w_undecodable _ Hraised)
    as (Hnone & [(Hown & _)|[(_ & _ & _ & Htrace)|(pre & o & k & t & a & _ & [[He _]|[He _]])]]).
  - discriminate Hown.
  - exact (conj Hraised (conj Hnone Htrace)).
  - discriminate He.
  - discriminate He.
Defined.

Lemma setup_rclone_none_after_one_command_witness :
  (setup_rclone (Config.load_config ∅) w_new_remote).1.1 = Ok false
  ∧ ∃ pre c rc z,
      (setup_rclone (Config.load_config ∅) w_new_remote).2 = pre ++ [EvRun c rc]
      ∧ commands pre = []
      ∧ (∃ options keys title, EvDialog options keys title (Py.Str "y") ∈ pre)
      ∧ EvDialog ["GoogleDrive"; "Dropbox"; "OneDrive"; "Other (manual setup using rclone)"]
                 None "Choose your cloud provider" (Py.Int z) ∈ pre
      ∧ (z < 3 → ∃ provider, Py.index provider_options z = Some provider
                             ∧ c = create_command ∅ provider)
      ∧ (3 ≤ z → c = "rclone config").
Proof.
  assert (Hnone : (setup_rclone (Config.load_config ∅) w_new_remote).1.1 = Ok false)
    by (vm_compute; reflexivity).
  exact (conj Hnone (setup_rclone_none_after_one_command (W:=world) ∅ w_new_remote Hnone)).
Defined.

Lemma setup_loop_returns_once_listed_witness :
  (setup_loop 2 (Config.load_config ∅) w_new_remote).1.1 = Ok tt
  ∧ ∃ pre out,
      (setup_loop 2 (Config.load_config ∅) w_new_remote).2
      = pre ++ [EvWhich "rclone" true; EvCheckOutput "rclone listremotes" (Some out)]
      ∧ remote_token ∅ ∈ Py.split out
      ∧ length (List.filter is_check_output (setup_loop 2 (Config.load_config ∅) w_new_remote).2)
        = S (length (commands (setup_loop 2 (Config.load_config ∅) w_new_remote).2)).
Proof.
  assert (Hok : (setup_loop 2 (Config.load_config ∅) w_new_remote).1.1 = Ok tt)
    by (vm_compute; reflexivity).
  exact (conj Hok (setup_loop_returns_once_listed (W:=world) 2 ∅ w_new_remote Hok)).
Defined.

Lemma main_quits_only_on_refusal_witness :
  (main 1 w_declines).1.1 = Exited
  ∧ refused (main 1 w_declines).2
  ∧ forallb is_preparation (main 1 w_declines).2 = true.
Proof.
  assert (Hquit : (main 1 w_declines).1.1 = Exited) by (vm_compute; reflexivity).
  exact (conj Hquit (main_quits_only_on_refusal (W:=world) 1 w_declines Hquit)).
Defined.

Lemma main_blocks_after_start_witness :
  (main 1 w_output_exists).1.1 = Blocked
  ∧ ∃ pre,
      (main 1 w_output_exists).2
      = pre ++ [EvTimeScheduler]
        ++ map (λ t, EvAdd (mkTask t CbDownloadIliasData) None)
             (times_of (os_environ (startup_world w_output_exists)))
        ++ [EvStart; EvWait]
      ∧ forallb (λ e, negb (is_scheduler_call e)) pre = true.
Proof.
  assert (Hblocked : (main 1 w_output_exists).1.1 = Blocked) by (vm_compute; reflexivity).
  exact (conj Hblocked (main_blocks_after_start (W:=world) 1 w_output_exists Hblocked)).
Defined.

Lemma scheduling_only_after_remote_listed_witness :
  forallb is_preparation (main 1 w_output_exists).2 = false
  ∧ ∃ pre out b post,
      (main 1 w_output_exists).2
      = pre ++ [EvWhich "rclone" true; EvCheckOutput "rclone listremotes" (Some out);
                EvPathExists "output" b] ++ post
      ∧ remote_token (os_environ (startup_world w_output_exists)) ∈ Py.split out
      ∧ forallb is_preparation pre = true.
Proof.
  assert (Hcalls : forallb is_preparation (main 1 w_output_exists).2 = false)
    by (vm_compute; reflexivity).
  exact (conj Hcalls
           (scheduling_only_after_remote_listed (W:=world) 1 w_output_exists Hcalls)).
Defined.

Lemma blank_upload_times_schedule_nothing_witness :
  (list_to_map [(UPLOAD_TIMES, " ")] : gmap string string) !! UPLOAD_TIMES = Some " "
  ∧ Py.blank " " = true
  ∧ schedule (Config.load_config (list_to_map [(UPLOAD_TIMES, " ")])) w_output_exists
    = (Blocked, ts_start (ts_new w_output_exists),
       [EvLog INFO "Scheduling automatic downloads for []"; EvTimeScheduler;
        EvStart; EvWait]).
Proof.
  assert (Hs : (list_to_map [(UPLOAD_TIMES, " ")] : gmap string string) !! UPLOAD_TIMES
               = Some " ") by (vm_compute; reflexivity).
  assert (Hne : " " ≠ "") by discriminate.
  assert (Hblank : Py.blank " " = true) by reflexivity.
  exact (conj Hs (conj Hblank
           (blank_upload_times_schedule_nothing (W:=world) _ w_output_exists " "
              Hs Hne Hblank))).
Defined.

Lemma upload_times_round_trip_witness :
  (list_to_map [(UPLOAD_TIMES, "06:00 18:30")] : gmap string string) !! UPLOAD_TIMES
  = Some (String.concat " " ["06:00"; "18:30"])
  ∧ upload_times (Config.load_config (list_to_map [(UPLOAD_TIMES, "06:00 18:30")]))
      w_output_exists
    = (Ok ["06:00"; "18:30"], w_output_exists, []).
Proof.
  assert (Henv : (list_to_map [(UPLOAD_TIMES, "06:00 18:30")] : gmap string string)
                 !! UPLOAD_TIMES = Some (String.concat " " ["06:00"; "18:30"]))
    by (vm_compute; reflexivity).
  assert (Hne : ["06:00"; "18:30"] ≠ []) by discriminate.
  assert (Htokens : Forall (λ t, Py.is_token t = true) ["06:00"; "18:30"])
    by (repeat constructor).
  exact (conj Henv
           (upload_times_round_trip (W:=world) _ ["06:00"; "18:30"] w_output_exists
              Hne Htokens Henv)).
Defined.

End ExtrasExamples.
